(** * Weather API: the service, its settings and its HTTP routes

    A shallow embedding of
      - app/core/config.py               (module [config])
      - app/services/weather_service.py  (module [weather_service])
      - app/api/routes/weather.py        (module [routes])
    followed by the properties of the lookup service and of the routes.

    Python floats are binary64 numbers: they are modelled by Rocq's
    primitive floats, so that comparisons and arithmetic are the ones the
    interpreter performs.  Dictionaries that the program only reads by key
    are finite maps; the table of cities, whose key order is observable
    through [get_available_cities], is an association list in insertion
    order.  The records of the table are objects on a heap: the table holds
    references to them, and so does whoever received one from
    [get_weather]. *)

From Stdlib Require Import ZArith String List Floats Lia.
From stdpp Require Import base list gmap strings.

Set Warnings "-inexact-float".
Local Open Scope string_scope.
Local Open Scope Z_scope.

(** ** Python values and exceptions *)

Module py.

(** The values found in the weather records. *)
Inductive value : Type :=
| VFloat (x : float)
| VInt (n : Z)
| VStr (s : string).

(** A [dict] with string keys. *)
Abbreviation dict := (gmap string value).

(** References to heap-allocated dictionaries. *)
Definition ref : Type := positive.

Inductive exn : Type :=
| ValueError (msg : string)
| KeyError (key : string)
| TypeError.

Inductive result (A : Type) : Type :=
| Return (a : A)
| Raise (e : exn).
Arguments Return {A} a.
Arguments Raise {A} e.

(** [str(b)] for a [bool]. *)
Definition str_bool (b : bool) : string :=
  if b then "True" else "False".

(** Truth value of a dictionary: [len(d) != 0]. *)
Definition truthy (d : dict) : bool := negb (size d =? 0)%nat.

(** [n > m] for an [int] on the left and a [float] on the right: Python
    compares the exact values. *)
Definition int_gt_float (n : Z) (m : float) : bool :=
  match Prim2SF m with
  | S754_nan => false
  | S754_infinity s => s
  | S754_zero _ => 0 <? n
  | S754_finite s mant e =>
      let mz := if s then Z.neg mant else Z.pos mant in
      if 0 <=? e then mz * 2 ^ e <? n else mz <? n * 2 ^ (- e)
  end.

(** [v > m] where [m] is a float. *)
Definition gt_float (v : value) (m : float) : result bool :=
  match v with
  | VFloat x => Return (PrimFloat.ltb m x)
  | VInt n => Return (int_gt_float n m)
  | VStr _ => Raise TypeError
  end.

(** *** [round(x, ndigits)] on a float, [ndigits >= 0]

    The interpreter rounds the exact value of [x] to [ndigits] decimal
    places, ties going to the even digit, and returns the float nearest
    to that decimal number.  Infinities, NaN and zeros are returned
    unchanged. *)

(** [n / d] rounded to the nearest integer, ties to even ([0 < d]). *)
Definition div_half_even (n d : Z) : Z :=
  let q := n / d in
  match 2 * (n mod d) ?= d with
  | Lt => q
  | Gt => q + 1
  | Eq => if Z.even q then q else q + 1
  end.

(** [|x| * 10^ndigits] as a fraction, for [|x| = mant * 2^e]. *)
Definition scaled_num (mant : positive) (e : Z) (ndigits : N) : Z :=
  Z.pos mant * 2 ^ Z.max e 0 * 10 ^ Z.of_N ndigits.
Definition scaled_den (e : Z) : Z := 2 ^ Z.max (- e) 0.

(** The binary64 number nearest to [(-1)^s * n / d], for [0 <= n] and
    [0 < d], ties going to the even mantissa.  Every finite binary64
    number is a whole multiple of [2^-1074]: counting in that unit, a
    number is [m * 2^E] with [0 <= E <= 2045] and a mantissa [m] of 53
    bits, or of fewer bits when [E = 0].  [E] is read off the magnitude
    of [n / d], the mantissa is the quotient rounded to the nearest
    integer, and a mantissa rounded up to [2^53] moves to the next
    exponent. *)
Definition nearest_SF (s : bool) (n d : Z) : spec_float :=
  let units := n * 2 ^ 1074 in
  let E := Z.max (Z.log2 (units / d) - 52) 0 in
  let m := div_half_even units (d * 2 ^ E) in
  let m' := if m =? 2 ^ 53 then 2 ^ 52 else m in
  let E' := if m =? 2 ^ 53 then E + 1 else E in
  match m' with
  | Zpos p =>
      if E' <=? 2045 then S754_finite s p (E' - 1074) else S754_infinity s
  | _ => S754_zero s
  end.

(** The float nearest to [(-1)^s * k / 10^ndigits]. *)
Definition of_decimal (s : bool) (k : Z) (ndigits : N) : float :=
  SF2Prim (nearest_SF s k (10 ^ Z.of_N ndigits)).

Definition round (x : float) (ndigits : N) : float :=
  match Prim2SF x with
  | S754_finite s mant e =>
      of_decimal s
        (div_half_even (scaled_num mant e ndigits) (scaled_den e)) ndigits
  | _ => x
  end.

End py.

(** ** app/core/config.py *)

Module config.

Record Settings : Type := {
  app_name : string;
  debug : bool;
  api_version : string;
  max_temperature : float;
}.

(** [Settings()] with no variable set in the environment. *)
Definition defaults : Settings := {|
  app_name := "Weather API";
  debug := false;
  api_version := "v1";
  max_temperature := 100.0%float;
|}.

End config.

(** ** app/services/weather_service.py *)

Module weather_service.
Import py config.

(** The interpreter state the service lives in: the heap of record
    objects, and the service's [_weather_data] attribute, a dictionary
    from city names to references, in insertion order. *)
Record WeatherService : Type := {
  heap : gmap ref dict;
  _weather_data : list (string * ref);
}.

(** The object a reference points to. *)
Definition deref (self : WeatherService) (r : ref) : dict := heap self !!! r.

(** [d.get(k)] on an insertion-ordered dictionary. *)
Fixpoint dict_get {A} (k : string) (d : list (string * A)) : option A :=
  match d with
  | [] => None
  | (k', v) :: d' => if String.eqb k k' then Some v else dict_get k d'
  end.

(** [list(d.keys())]. *)
Definition dict_keys {A} (d : list (string * A)) : list string := map fst d.

Definition seed (temp : float) (humidity : Z) (condition : string) : dict :=
  <["temp" := VFloat temp]>
    (<["humidity" := VInt humidity]>
       (<["condition" := VStr condition]> ∅)).

(** [WeatherService.__init__]: four records are allocated and the table
    refers to them. *)
Definition __init__ : WeatherService := {|
  heap :=
    <[1%positive := seed 72.5 65 "Partly Cloudy"]>
      (<[2%positive := seed 59.0 78 "Rainy"]>
         (<[3%positive := seed 68.3 55 "Sunny"]>
            (<[4%positive := seed 77.9 60 "Clear"]> ∅)));
  _weather_data :=
    [("New York", 1%positive); ("London", 2%positive);
     ("Tokyo", 3%positive); ("Sydney", 4%positive)];
|}.

(** Computations of the service: they read and update the state and
    either return or raise. *)
Definition M (A : Type) : Type := WeatherService → result A * WeatherService.

#[export] Instance M_ret : MRet M := λ A a self, (Return a, self).
#[export] Instance M_bind : MBind M :=
  λ A B f m self,
    match m self with
    | (Return a, self') => f a self'
    | (Raise e, self') => (Raise e, self')
    end.
Definition raise {A} (e : exn) : M A := λ self, (Raise e, self).
Definition lift {A} (r : result A) : M A := λ self, (r, self).

(** [r[k]]. *)
Definition getitem (r : ref) (k : string) : M value :=
  λ self,
    match deref self r !! k with
    | Some v => (Return v, self)
    | None => (Raise (KeyError k), self)
    end.

(** [r[k] = v]: the object is updated in place. *)
Definition setitem (r : ref) (k : string) (v : value) : M unit :=
  λ self,
    (Return tt,
     {| heap := <[r := <[k := v]> (deref self r)]> (heap self);
        _weather_data := _weather_data self |}).

Definition not_found (city : string) : string :=
  "Weather data not found for city: " +:+ city.

Definition warning_text : string := "Temperature exceeds maximum threshold!".

Section service.
Variable settings : Settings.

(** [get_weather(city)], called when the clock reads [now] (the text
    [datetime.now(timezone.utc).isoformat()] evaluates to). *)
Definition get_weather (now : string) (city : string) : M ref :=
  λ self,
    match dict_get city (_weather_data self) with
    | None => raise (ValueError (not_found city)) self
    | Some weather =>
        if negb (truthy (deref self weather))
        then raise (ValueError (not_found city)) self
        else
          (temp ← getitem weather "temp";
           hot ← lift (gt_float temp (max_temperature settings));
           (if hot : bool
            then setitem weather "warning" (VStr warning_text)
            else mret tt);;
           setitem weather "timestamp" (VStr now);;
           setitem weather "city" (VStr city);;
           mret weather) self
    end.

Definition get_available_cities : M (list string) :=
  λ self, (Return (dict_keys (_weather_data self)), self).

Definition calculate_heat_index (temperature humidity : float) : M float :=
  let heat_index := (temperature + 0.5 * humidity)%float in
  mret (round heat_index 2).

End service.

End weather_service.

(** ** app/api/routes/weather.py *)

Module routes.
Import py config weather_service.

(** One entry of the body of a validation failure. *)
Record validation_error : Type := {
  loc : list string;
  type : string;
}.

(** What a response carries: the value a handler returns, shaped by its
    [response_model], or what the framework sends for a failure. *)
Inductive body : Type :=
| record_body (d : dict)
| list_body (l : list string)
| float_dict_body (d : gmap string float)
| str_dict_body (d : gmap string string)
| detail_body (detail : string)
| validation_body (detail : list validation_error)
| server_error_body.

Record response : Type := {
  status_code : Z;
  content : body;
}.

(** The numeric bounds of a [Query(..., ge=lo, le=hi)] parameter. *)
Record Query : Type := {
  ge : float;
  le : float;
}.

(** The framework checks a parsed float parameter against its bounds
    before the handler runs: the value is accepted when
    [x <= le] and [ge <= x] both hold, and the first bound that fails
    is reported. *)
Definition check_query (name : string) (q : Query) (x : float)
  : list validation_error :=
  if negb (PrimFloat.leb x (le q))
  then [{| loc := ["query"; name]; type := "less_than_equal" |}]
  else if negb (PrimFloat.leb (ge q) x)
  then [{| loc := ["query"; name]; type := "greater_than_equal" |}]
  else [].

Definition temperature_query : Query := {| ge := (-50)%float; le := 150%float |}.
Definition humidity_query : Query := {| ge := 0%float; le := 100%float |}.

Section handlers.
Variable settings : Settings.

(** [GET /weather/?city=...]: a [ValueError] of the service becomes
    [HTTPException(status_code=404, detail=str(e))]; any other
    exception is left to the framework, which answers 500.  A returned
    record is serialised as it stands when the handler returns. *)
Definition get_weather (now : string) (city : string)
  : WeatherService → response * WeatherService :=
  λ self,
    match weather_service.get_weather settings now city self with
    | (Return weather_data, self') =>
        ({| status_code := 200;
            content := record_body (deref self' weather_data) |}, self')
    | (Raise (ValueError msg), self') =>
        ({| status_code := 404; content := detail_body msg |}, self')
    | (Raise _, self') =>
        ({| status_code := 500; content := server_error_body |}, self')
    end.

(** [GET /weather/cities]. *)
Definition get_available_cities
  : WeatherService → response * WeatherService :=
  λ self,
    match weather_service.get_available_cities self with
    | (Return cities, self') =>
        ({| status_code := 200; content := list_body cities |}, self')
    | (Raise _, self') =>
        ({| status_code := 500; content := server_error_body |}, self')
    end.

(** [GET /weather/heat-index?temperature=...&humidity=...], for the
    two parameters as parsed by the framework. *)
Definition calculate_heat_index (temperature humidity : float)
  : WeatherService → response * WeatherService :=
  λ self,
    match (check_query "temperature" temperature_query temperature
           ++ check_query "humidity" humidity_query humidity)%list with
    | [] =>
        match weather_service.calculate_heat_index
                temperature humidity self with
        | (Return heat_index, self') =>
            ({| status_code := 200;
                content :=
                  float_dict_body
                    (<["temperature" := temperature]>
                       (<["humidity" := humidity]>
                          (<["heat_index" := heat_index]> ∅))) |}, self')
        | (Raise _, self') =>
            ({| status_code := 500; content := server_error_body |}, self')
        end
    | errors =>
        ({| status_code := 422; content := validation_body errors |}, self)
    end.

(** [GET /weather/info]. *)
Definition get_api_info : response :=
  {| status_code := 200;
     content :=
       str_dict_body
         (<["app_name" := app_name settings]>
            (<["version" := api_version settings]>
               (<["debug_mode" := str_bool (debug settings)]> ∅))) |}.

End handlers.

End routes.

(** ** Sequences of calls on the service *)

Module calls.
Import py config weather_service.

Inductive call : Type :=
| GetWeather (now : string) (city : string)
| GetAvailableCities
| CalculateHeatIndex (temperature humidity : float).

Section run.
Variable settings : Settings.

(** The state a call leaves behind, whether it returns or raises. *)
Definition exec (c : call) (self : WeatherService) : WeatherService :=
  match c with
  | GetWeather now city => snd (get_weather settings now city self)
  | GetAvailableCities => snd (get_available_cities self)
  | CalculateHeatIndex t h => snd (calculate_heat_index t h self)
  end.

Definition run (cs : list call) (self : WeatherService) : WeatherService :=
  fold_left (λ s c, exec c s) cs self.

(** The record [get_weather] leaves in place of [d]: [d] with the
    warning (when its temperature exceeds the maximum), the timestamp
    and the city written on it. *)
Definition annotate (now city : string) (d : dict) : result dict :=
  match d !! "temp" with
  | None => Raise (KeyError "temp")
  | Some temp =>
      match gt_float temp (max_temperature settings) with
      | Raise e => Raise e
      | Return hot =>
          Return
            (<["city" := VStr city]>
               (<["timestamp" := VStr now]>
                  (if hot then <["warning" := VStr warning_text]> d else d)))
      end
  end.

(** What holds of the service at any time: the table is the one
    [__init__] built, and each record it refers to is the seed record,
    either as allocated or as annotated by the latest lookup. *)
Definition seeded (self : WeatherService) : Prop :=
  _weather_data self = _weather_data __init__ ∧
  ∀ city r,
    dict_get city (_weather_data __init__) = Some r →
    deref self r = deref __init__ r ∨
    ∃ now, annotate now city (deref __init__ r) = Return (deref self r).

(** The record a lookup leaves for a city seeded with [temp],
    [humidity] and [condition]. *)
Definition annotated (now city : string) (temp : float) (humidity : Z)
    (condition : string) : dict :=
  <["city" := VStr city]>
    (<["timestamp" := VStr now]>
       (if PrimFloat.ltb (max_temperature settings) temp
        then <["warning" := VStr warning_text]>
               (seed temp humidity condition)
        else seed temp humidity condition)).

End run.

(** [self] with the object at [r] replaced by [d]. *)
Definition store (r : ref) (d : dict) (self : WeatherService) : WeatherService :=
  {| heap := <[r := d]> (heap self); _weather_data := _weather_data self |}.

(** The names and values [__init__] is written with. *)
Definition seed_data : list (string * (float * Z * string)) :=
  [("New York", (72.5%float, 65, "Partly Cloudy"));
   ("London", (59.0%float, 78, "Rainy"));
   ("Tokyo", (68.3%float, 55, "Sunny"));
   ("Sydney", (77.9%float, 60, "Clear"))].

End calls.

(** ** The history of a run *)

Module history.
Import calls.

(** The clock reading of the latest [get_weather(city)] among [cs], the
    calls being listed oldest first. *)
Fixpoint last_lookup (city : string) (cs : list call) : option string :=
  match cs with
  | [] => None
  | c :: cs' =>
      match last_lookup city cs' with
      | Some now => Some now
      | None =>
          match c with
          | GetWeather now city' =>
              if String.eqb city' city then Some now else None
          | _ => None
          end
      end
  end.

End history.

(** ** The heat index over the reals

    The formula of the specification, [t + 0.5 * h] rounded to 2 decimal
    places, evaluated exactly on the values of its float arguments, to be
    set beside what [calculate_heat_index] computes. *)

Module real_formula.
Import py.

(** [n / d] rounded to the nearest integer, ties away from zero
    ([0 < d]). *)
Definition div_half_away (n d : Z) : Z :=
  let q := Z.abs n / d in
  Z.sgn n * (if 2 * (Z.abs n mod d) <? d then q else q + 1).

(** The exact value of a finite float, as a fraction. *)
Definition exact (x : float) : option (Z * Z) :=
  match Prim2SF x with
  | S754_zero _ => Some (0, 1)
  | S754_finite s mant e =>
      Some ((if s then Z.neg mant else Z.pos mant) * 2 ^ Z.max e 0,
            2 ^ Z.max (- e) 0)
  | _ => None
  end.

(** The number of hundredths in [t + 0.5 * h], the sum being taken over
    the reals and rounded to 2 decimal places by [rounding]. *)
Definition heat_index_hundredths (rounding : Z → Z → Z) (t h : float)
  : option Z :=
  match exact t, exact h with
  | Some (nt, dt), Some (nh, dh) =>
      Some (rounding (100 * (2 * nt * dh + nh * dt)) (2 * dt * dh))
  | _, _ => None
  end.

End real_formula.

(** * Properties *)

Import py config weather_service calls.

(** ** The shape of a lookup *)

Section lookup.
Variable settings : Settings.

Lemma get_weather_absent now city self :
  dict_get city (_weather_data self) = None →
  get_weather settings now city self
  = (Raise (ValueError (not_found city)), self).
Proof. intros Hget. unfold get_weather. by rewrite Hget. Qed.

Lemma get_weather_falsy now city self r :
  dict_get city (_weather_data self) = Some r →
  truthy (deref self r) = false →
  get_weather settings now city self
  = (Raise (ValueError (not_found city)), self).
Proof. intros Hget Hd. unfold get_weather. by rewrite Hget, Hd. Qed.

(** A lookup that finds a non-empty record writes the annotations on the
    stored object and returns the reference it was stored under. *)
Lemma get_weather_present now city self r :
  dict_get city (_weather_data self) = Some r →
  truthy (deref self r) = true →
  get_weather settings now city self
  = match annotate settings now city (deref self r) with
    | Return d => (Return r, store r d self)
    | Raise e => (Raise e, self)
    end.
Proof.
  intros Hget Hd. unfold get_weather, annotate. rewrite Hget, Hd. simpl.
  unfold mbind, M_bind, getitem, lift.
  destruct (deref self r !! "temp") as [temp|]; [|done].
  destruct (gt_float temp (max_temperature settings)) as [hot|e]; [|done].
  unfold store, setitem, mret, M_ret, deref.
  destruct hot; simpl;
    repeat (rewrite ?lookup_total_insert_eq, ?insert_insert_eq); done.
Qed.

End lookup.

(** ** Facts about dictionaries *)

Lemma dict_get_In {A} k (d : list (string * A)) v :
  dict_get k d = Some v → In (k, v) d.
Proof.
  induction d as [|[k' v'] d IH]; simpl; [done|].
  destruct (String.eqb_spec k k') as [->|Hne].
  - intros [= ->]. by left.
  - intros Hget. right. by apply IH.
Qed.

Lemma dict_get_is_Some {A} k (d : list (string * A)) :
  is_Some (dict_get k d) ↔ In k (dict_keys d).
Proof.
  induction d as [|[k' v'] d IH]; simpl.
  - split; [by intros [? ?]|done].
  - destruct (String.eqb_spec k k') as [->|Hne].
    + split; [by left|by eexists].
    + rewrite IH. split; [by right|]. by intros [->|].
Qed.

Lemma truthy_lookup (d : dict) k v : d !! k = Some v → truthy d = true.
Proof.
  intros Hk. unfold truthy.
  destruct (Nat.eqb_spec (size d) 0) as [Hz|]; [|done].
  apply map_size_empty_iff in Hz. subst d. by rewrite lookup_empty in Hk.
Qed.

(** ** The seed table *)

Lemma seed_table city r :
  dict_get city (_weather_data __init__) = Some r →
  ∃ temp humidity condition,
    In (city, (temp, humidity, condition)) seed_data ∧
    deref __init__ r = seed temp humidity condition.
Proof.
  intros Hget. apply dict_get_In in Hget. simpl in Hget.
  destruct Hget as [[= <- <-]|[[= <- <-]|[[= <- <-]|[[= <- <-]|[]]]]];
    do 3 eexists; (split; [|reflexivity]); simpl; tauto.
Qed.

Lemma seed_refs_inj city1 city2 r :
  dict_get city1 (_weather_data __init__) = Some r →
  dict_get city2 (_weather_data __init__) = Some r →
  city1 = city2.
Proof.
  intros H1 H2. apply dict_get_In in H1, H2. simpl in H1, H2.
  destruct H1 as [[= <- <-]|[[= <- <-]|[[= <- <-]|[[= <- <-]|[]]]]];
    destruct H2 as [[= <-]|[[= <-]|[[= <-]|[[= <-]|[]]]]]; done.
Qed.

Lemma seed_lookups temp humidity condition :
  seed temp humidity condition !! "temp" = Some (VFloat temp) ∧
  seed temp humidity condition !! "humidity" = Some (VInt humidity) ∧
  seed temp humidity condition !! "condition" = Some (VStr condition) ∧
  seed temp humidity condition !! "warning" = None ∧
  seed temp humidity condition !! "timestamp" = None ∧
  seed temp humidity condition !! "city" = None.
Proof. unfold seed. repeat split; by simplify_map_eq. Qed.

(** ** Annotation of a record *)

Section annotation.
Variable settings : Settings.

Lemma annotate_inv now city d d' :
  annotate settings now city d = Return d' →
  ∃ temp hot,
    d !! "temp" = Some temp ∧
    gt_float temp (max_temperature settings) = Return hot ∧
    d' = <["city" := VStr city]>
           (<["timestamp" := VStr now]>
              (if hot then <["warning" := VStr warning_text]> d else d)).
Proof.
  unfold annotate. destruct (d !! "temp") as [temp|] eqn:Htemp; [|done].
  destruct (gt_float temp (max_temperature settings)) as [hot|] eqn:Hhot;
    [|done].
  intros [= <-]. by exists temp, hot.
Qed.

Lemma annotate_fields now city d d' :
  annotate settings now city d = Return d' →
  d' !! "city" = Some (VStr city) ∧
  d' !! "timestamp" = Some (VStr now) ∧
  ∀ k, k ≠ "city" → k ≠ "timestamp" → k ≠ "warning" → d' !! k = d !! k.
Proof.
  intros H. apply annotate_inv in H as (temp & hot & _ & _ & ->).
  repeat split.
  - by simplify_map_eq.
  - by simplify_map_eq.
  - intros k ? ? ?. destruct hot; by simplify_map_eq.
Qed.

(** Annotating an annotated record gives what annotating the original
    gives: the earlier timestamp and city are overwritten, and the
    warning is decided by the same temperature. *)
Lemma annotate_again now1 city1 now2 city2 d d1 :
  annotate settings now1 city1 d = Return d1 →
  annotate settings now2 city2 d1 = annotate settings now2 city2 d.
Proof.
  intros H. apply annotate_inv in H as (temp & hot & Htemp & Hhot & ->).
  unfold annotate.
  rewrite Htemp, Hhot.
  replace (_ !! "temp") with (Some temp)
    by (destruct hot; by simplify_map_eq).
  rewrite Hhot. f_equal. apply map_eq. intros k.
  destruct (decide (k = "city")) as [->|]; [by simplify_map_eq|].
  destruct (decide (k = "timestamp")) as [->|]; [by simplify_map_eq|].
  destruct (decide (k = "warning")) as [->|];
    destruct hot; by simplify_map_eq.
Qed.

Lemma annotate_seed now city temp humidity condition :
  annotate settings now city (seed temp humidity condition)
  = Return
      (<["city" := VStr city]>
         (<["timestamp" := VStr now]>
            (if PrimFloat.ltb (max_temperature settings) temp
             then <["warning" := VStr warning_text]>
                    (seed temp humidity condition)
             else seed temp humidity condition))).
Proof.
  unfold annotate.
  by destruct (seed_lookups temp humidity condition) as (-> & _).
Qed.

End annotation.

(** ** The invariant of the service *)

Section invariant.
Variable settings : Settings.

Lemma seeded_init : seeded settings __init__.
Proof. split; [done|]. intros city r _. by left. Qed.

Lemma seeded_annotate now city r self :
  seeded settings self →
  dict_get city (_weather_data __init__) = Some r →
  ∃ d',
    annotate settings now city (deref __init__ r) = Return d' ∧
    annotate settings now city (deref self r) = Return d' ∧
    truthy (deref self r) = true.
Proof.
  intros [_ Hrec] Hget.
  destruct (seed_table _ _ Hget) as (temp & humidity & condition & _ & Hseed).
  pose proof (annotate_seed settings now city temp humidity condition) as Hann.
  rewrite <- Hseed in Hann. eexists. split; [exact Hann|].
  destruct (Hrec _ _ Hget) as [->|[now0 Hnow0]].
  - split; [exact Hann|]. rewrite Hseed.
    destruct (seed_lookups temp humidity condition) as (Htemp & _).
    by eapply truthy_lookup.
  - split.
    + erewrite annotate_again by exact Hnow0. exact Hann.
    + destruct (annotate_fields _ _ _ _ _ Hnow0) as (Hcity & _).
      by eapply truthy_lookup.
Qed.

(** On the service, a lookup of a seed city returns the stored reference
    and leaves the annotated seed record under it. *)
Lemma get_weather_seeded now city r self :
  seeded settings self →
  dict_get city (_weather_data __init__) = Some r →
  ∃ d',
    annotate settings now city (deref __init__ r) = Return d' ∧
    get_weather settings now city self = (Return r, store r d' self).
Proof.
  intros Hinv Hget.
  destruct (seeded_annotate now city r self Hinv Hget)
    as (d' & Hinit & Hself & Htruthy).
  exists d'. split; [done|].
  destruct Hinv as [Htable _].
  rewrite (get_weather_present settings now city self r);
    [by rewrite Hself| by rewrite Htable | done].
Qed.

Lemma seeded_store now city r d' self :
  seeded settings self →
  dict_get city (_weather_data __init__) = Some r →
  annotate settings now city (deref __init__ r) = Return d' →
  seeded settings (store r d' self).
Proof.
  intros [Htable Hrec] Hget Hann. split; [done|].
  intros city' r' Hget'. unfold deref, store. simpl.
  destruct (decide (r' = r)) as [->|Hne].
  - rewrite lookup_total_insert_eq. right. exists now.
    by rewrite (seed_refs_inj _ _ _ Hget' Hget).
  - rewrite lookup_total_insert_ne by done. by apply Hrec.
Qed.

Lemma exec_seeded c self :
  seeded settings self → seeded settings (exec settings c self).
Proof.
  intros Hinv. destruct c as [now city| |t h]; simpl; [|done..].
  destruct (dict_get city (_weather_data __init__)) as [r|] eqn:Hget.
  - destruct (get_weather_seeded now city r self Hinv Hget)
      as (d' & Hann & ->).
    simpl. by eapply seeded_store.
  - rewrite get_weather_absent; [done|]. by rewrite (proj1 Hinv).
Qed.

Lemma run_seeded cs self :
  seeded settings self → seeded settings (run settings cs self).
Proof.
  revert self. induction cs as [|c cs IH]; intros self Hinv; simpl; [done|].
  apply IH. by apply exec_seeded.
Qed.

Lemma run_app cs1 cs2 self :
  run settings (cs1 ++ cs2) self = run settings cs2 (run settings cs1 self).
Proof. unfold run. by rewrite fold_left_app. Qed.

End invariant.

(** ** Lookups that fail *)

Section failures.
Variable settings : Settings.

Lemma get_weather_table now city self :
  _weather_data (snd (get_weather settings now city self))
  = _weather_data self.
Proof.
  destruct (dict_get city (_weather_data self)) as [r|] eqn:Hget.
  - destruct (truthy (deref self r)) eqn:Hd.
    + rewrite (get_weather_present settings now city self r Hget Hd).
      by destruct (annotate settings now city (deref self r)).
    + by rewrite (get_weather_falsy settings now city self r Hget Hd).
  - by rewrite get_weather_absent.
Qed.

(** Whatever [get_weather] raises, it raises before it writes. *)
Lemma get_weather_raise_unchanged now city self e self' :
  get_weather settings now city self = (Raise e, self') → self' = self.
Proof.
  destruct (dict_get city (_weather_data self)) as [r|] eqn:Hget.
  - destruct (truthy (deref self r)) eqn:Hd.
    + rewrite (get_weather_present settings now city self r Hget Hd).
      destruct (annotate settings now city (deref self r)); [done|].
      by intros [= _ <-].
    + rewrite (get_weather_falsy settings now city self r Hget Hd).
      by intros [= _ <-].
  - rewrite get_weather_absent by done. by intros [= _ <-].
Qed.

End failures.

(** C4: for a city that is not a key of the table, [get_weather] raises
    the not-found error ([ValueError]) whose message is exactly
    "Weather data not found for city: " followed by the city as given, and
    the route answers 404 with that message as its [detail]. *)
Theorem get_weather_not_found settings now city self :
  dict_get city (_weather_data self) = None →
  fst (get_weather settings now city self)
  = Raise (ValueError ("Weather data not found for city: " +:+ city)) ∧
  fst (routes.get_weather settings now city self)
  = {| routes.status_code := 404;
       routes.content :=
         routes.detail_body ("Weather data not found for city: " +:+ city) |}.
Proof.
  intros Habsent. unfold routes.get_weather.
  by rewrite (get_weather_absent settings now city self Habsent).
Qed.

Lemma get_weather_not_found_witness :
  dict_get "InvalidCity" (_weather_data __init__) = None ∧
  fst (get_weather defaults "2024-05-01T12:00:00+00:00" "InvalidCity" __init__)
  = Raise (ValueError "Weather data not found for city: InvalidCity") ∧
  fst (routes.get_weather defaults "2024-05-01T12:00:00+00:00" "InvalidCity"
         __init__)
  = {| routes.status_code := 404;
       routes.content :=
         routes.detail_body "Weather data not found for city: InvalidCity" |}.
Proof.
  split; [reflexivity|].
  apply (get_weather_not_found defaults "2024-05-01T12:00:00+00:00"
           "InvalidCity" __init__).
  reflexivity.
Defined.

(** C10: when [get_weather] fails for a city that is not in the table, it
    has raised before any annotation was written: the call leaves the
    service, hence every stored record, exactly as it found it. *)
Theorem get_weather_not_found_atomic settings now city self :
  dict_get city (_weather_data self) = None →
  ∃ msg,
    get_weather settings now city self = (Raise (ValueError msg), self) ∧
    ∀ r, deref (snd (get_weather settings now city self)) r = deref self r.
Proof.
  intros Habsent. exists (not_found city).
  by rewrite (get_weather_absent settings now city self Habsent).
Qed.

Lemma get_weather_not_found_atomic_witness :
  dict_get "Paris" (_weather_data __init__) = None ∧
  ∃ msg,
    get_weather defaults "2024-05-01T12:00:00+00:00" "Paris" __init__
    = (Raise (ValueError msg), __init__) ∧
    ∀ r,
      deref (snd (get_weather defaults "2024-05-01T12:00:00+00:00" "Paris"
                    __init__)) r
      = deref __init__ r.
Proof.
  split; [reflexivity|].
  apply (get_weather_not_found_atomic defaults "2024-05-01T12:00:00+00:00"
           "Paris" __init__).
  reflexivity.
Defined.

(** ** The keys of the table *)

(** C8: whatever calls came before, lookups included,
    [get_available_cities] returns New York, London, Tokyo, Sydney, in
    that order, and leaves the service as it is. *)
Theorem get_available_cities_stable settings cs :
  get_available_cities (run settings cs __init__)
  = (Return ["New York"; "London"; "Tokyo"; "Sydney"],
     run settings cs __init__).
Proof.
  unfold get_available_cities.
  destruct (run_seeded settings cs __init__ (seeded_init settings)) as [-> _].
  reflexivity.
Qed.

(** C9: no call of the service changes the table of references, so its
    key set is preserved by every operation; after any sequence of calls
    the cities the table maps are exactly the four seed names. *)
Theorem table_keys_preserved settings :
  (∀ c self,
     _weather_data (exec settings c self) = _weather_data self) ∧
  (∀ cs city,
     is_Some (dict_get city (_weather_data (run settings cs __init__)))
     ↔ In city ["New York"; "London"; "Tokyo"; "Sydney"]).
Proof.
  split.
  - intros [now city| |t h] self; simpl; [|done..].
    apply get_weather_table.
  - intros cs city.
    destruct (run_seeded settings cs __init__ (seeded_init settings)) as [-> _].
    apply dict_get_is_Some.
Qed.

(** ** Lookups of the seed cities *)

Lemma seed_values city temp humidity condition :
  In (city, (temp, humidity, condition)) seed_data →
  ∃ r,
    dict_get city (_weather_data __init__) = Some r ∧
    deref __init__ r = seed temp humidity condition.
Proof.
  simpl.
  intros [[= <- <- <- <-]|[[= <- <- <- <-]|[[= <- <- <- <-]|[[= <- <- <- <-]|[]]]]];
    eexists; split; reflexivity.
Qed.

Lemma seed_data_functional city v v' :
  In (city, v) seed_data → In (city, v') seed_data → v = v'.
Proof.
  simpl.
  intros [[= <- <-]|[[= <- <-]|[[= <- <-]|[[= <- <-]|[]]]]]
    [[= <-]|[[= <-]|[[= <-]|[[= <-]|[]]]]]; done.
Qed.

Section seed_lookup.
Variable settings : Settings.

Lemma get_weather_after_run cs now city r :
  dict_get city (_weather_data (run settings cs __init__)) = Some r →
  ∃ temp humidity condition,
    In (city, (temp, humidity, condition)) seed_data ∧
    deref (run settings cs __init__) r !! "temp" = Some (VFloat temp) ∧
    get_weather settings now city (run settings cs __init__)
    = (Return r,
       store r (annotated settings now city temp humidity condition)
         (run settings cs __init__)).
Proof.
  pose proof (run_seeded settings cs __init__ (seeded_init settings)) as Hinv.
  rewrite (proj1 Hinv). intros Hget.
  destruct (seed_table _ _ Hget) as (temp & humidity & condition & Hin & Hseed).
  exists temp, humidity, condition. split; [done|].
  destruct (seed_lookups temp humidity condition) as (Htemp & _).
  split.
  - destruct (proj2 Hinv _ _ Hget) as [->|[now0 Hnow0]].
    + by rewrite Hseed.
    + destruct (annotate_fields _ _ _ _ _ Hnow0) as (_ & _ & ->); try done.
      by rewrite Hseed.
  - destruct (get_weather_seeded settings now city r _ Hinv Hget)
      as (d' & Hann & ->).
    rewrite Hseed, annotate_seed in Hann. by injection Hann as <-.
Qed.

Lemma annotated_lookups now city temp humidity condition :
  let d := annotated settings now city temp humidity condition in
  d !! "city" = Some (VStr city) ∧
  d !! "timestamp" = Some (VStr now) ∧
  d !! "temp" = Some (VFloat temp) ∧
  d !! "humidity" = Some (VInt humidity) ∧
  d !! "condition" = Some (VStr condition) ∧
  d !! "warning"
  = (if PrimFloat.ltb (max_temperature settings) temp
     then Some (VStr warning_text) else None).
Proof.
  unfold annotated, seed.
  destruct (PrimFloat.ltb (max_temperature settings) temp);
    repeat split; by simplify_map_eq.
Qed.

End seed_lookup.

(** C7: for each of New York, London, Tokyo and Sydney, at any time,
    [get_weather] returns a record whose [city] is the name asked for and
    whose temperature (key [temp]), humidity and condition are the values
    the service was built with. *)
Theorem get_weather_seed_values settings cs now city temp humidity condition :
  In (city, (temp, humidity, condition))
    [("New York", (72.5%float, 65, "Partly Cloudy"));
     ("London", (59.0%float, 78, "Rainy"));
     ("Tokyo", (68.3%float, 55, "Sunny"));
     ("Sydney", (77.9%float, 60, "Clear"))] →
  ∃ r self',
    get_weather settings now city (run settings cs __init__)
    = (Return r, self') ∧
    deref self' r !! "city" = Some (VStr city) ∧
    deref self' r !! "temp" = Some (VFloat temp) ∧
    deref self' r !! "humidity" = Some (VInt humidity) ∧
    deref self' r !! "condition" = Some (VStr condition).
Proof.
  intros Hin.
  destruct (seed_values city temp humidity condition Hin) as (r & Hget & Hseed).
  pose proof (run_seeded settings cs __init__ (seeded_init settings)) as Hinv.
  rewrite <- (proj1 Hinv) in Hget.
  destruct (get_weather_after_run settings cs now city r Hget)
    as (temp' & humidity' & condition' & Hin' & _ & Hcall).
  pose proof (seed_data_functional _ _ _ Hin Hin') as [= <- <- <-].
  exists r, (store r (annotated settings now city temp humidity condition)
               (run settings cs __init__)).
  split; [done|]. unfold deref, store. simpl. rewrite lookup_total_insert_eq.
  destruct (annotated_lookups settings now city temp humidity condition)
    as (? & ? & ? & ? & ? & ?).
  done.
Qed.

Lemma get_weather_seed_values_witness :
  ∃ r self',
    get_weather defaults "2024-05-01T12:00:00+00:00" "New York"
      (run defaults [GetWeather "2024-05-01T11:59:00+00:00" "New York";
                     GetAvailableCities] __init__)
    = (Return r, self') ∧
    deref self' r !! "city" = Some (VStr "New York") ∧
    deref self' r !! "temp" = Some (VFloat 72.5) ∧
    deref self' r !! "humidity" = Some (VInt 65) ∧
    deref self' r !! "condition" = Some (VStr "Partly Cloudy").
Proof.
  apply (get_weather_seed_values defaults
           [GetWeather "2024-05-01T11:59:00+00:00" "New York";
            GetAvailableCities]
           "2024-05-01T12:00:00+00:00" "New York" 72.5%float 65
           "Partly Cloudy").
  left. reflexivity.
Defined.

(** C3: at any time, the record [get_weather] returns for a city of the
    table has a [warning] exactly when the city's stored temperature is
    strictly above [settings.max_temperature], and the warning is then the
    fixed advisory text; the default maximum is 100.0. *)
Theorem warning_iff_above_max settings cs now city r :
  dict_get city (_weather_data (run settings cs __init__)) = Some r →
  ∃ temp self',
    deref (run settings cs __init__) r !! "temp" = Some (VFloat temp) ∧
    get_weather settings now city (run settings cs __init__)
    = (Return r, self') ∧
    (is_Some (deref self' r !! "warning")
     ↔ PrimFloat.ltb (max_temperature settings) temp = true) ∧
    (∀ w, deref self' r !! "warning" = Some w →
          w = VStr "Temperature exceeds maximum threshold!") ∧
    max_temperature defaults = 100%float.
Proof.
  intros Hget.
  destruct (get_weather_after_run settings cs now city r Hget)
    as (temp & humidity & condition & _ & Htemp & Hcall).
  exists temp, (store r (annotated settings now city temp humidity condition)
                  (run settings cs __init__)).
  split; [done|]. split; [done|].
  unfold deref, store. simpl. rewrite lookup_total_insert_eq.
  destruct (annotated_lookups settings now city temp humidity condition)
    as (_ & _ & _ & _ & _ & ->).
  destruct (PrimFloat.ltb (max_temperature settings) temp).
  - split; [by split; [|eexists]|]. split; [|done]. by intros w [= <-].
  - split; [split; [by intros [? ?]|done]|]. by split.
Qed.

Lemma warning_iff_above_max_witness :
  ∃ temp self',
    deref (run defaults [GetWeather "2024-05-01T11:59:00+00:00" "Tokyo"]
             __init__) 3%positive !! "temp" = Some (VFloat temp) ∧
    get_weather defaults "2024-05-01T12:00:00+00:00" "Tokyo"
      (run defaults [GetWeather "2024-05-01T11:59:00+00:00" "Tokyo"] __init__)
    = (Return 3%positive, self') ∧
    (is_Some (deref self' 3%positive !! "warning")
     ↔ PrimFloat.ltb (max_temperature defaults) temp = true) ∧
    (∀ w, deref self' 3%positive !! "warning" = Some w →
          w = VStr "Temperature exceeds maximum threshold!") ∧
    max_temperature defaults = 100%float.
Proof.
  apply (warning_iff_above_max defaults
           [GetWeather "2024-05-01T11:59:00+00:00" "Tokyo"]
           "2024-05-01T12:00:00+00:00" "Tokyo" 3%positive).
  reflexivity.
Defined.

(** With a maximum of 70 the lookup of New York (72.5) carries the
    warning and the lookup of London (59.0) does not; with the default
    maximum no seed city does. *)
Example warning_examples :
  let cool :=
    {| app_name := "Weather API"; debug := false; api_version := "v1";
       max_temperature := 70%float |} in
  let lookup settings city :=
    match get_weather settings "2024-05-01T12:00:00+00:00" city __init__ with
    | (Return r, self') => deref self' r !! "warning"
    | (Raise _, _) => None
    end in
  lookup cool "New York" = Some (VStr "Temperature exceeds maximum threshold!") ∧
  lookup cool "London" = None ∧
  lookup defaults "New York" = None ∧
  lookup defaults "Sydney" = None.
Proof. repeat split; reflexivity. Qed.

(** ** Writes to the stored records *)

(** C1, as the claim has it, fails on the first lookup: the record stored
    for New York has no [city] and no [timestamp] when the service is
    built, and has both once [get_weather] has returned, so the call
    changed the table's record. *)
Lemma get_weather_writes_stored_record :
  let self' :=
    snd (get_weather defaults "2024-05-01T12:00:00+00:00" "New York" __init__)
  in
  dict_get "New York" (_weather_data __init__) = Some 1%positive ∧
  dict_get "New York" (_weather_data self') = Some 1%positive ∧
  deref __init__ 1%positive !! "city" = None ∧
  deref __init__ 1%positive !! "timestamp" = None ∧
  deref self' 1%positive !! "city" = Some (VStr "New York") ∧
  deref self' 1%positive !! "timestamp"
  = Some (VStr "2024-05-01T12:00:00+00:00") ∧
  self' ≠ __init__.
Proof.
  repeat split; try reflexivity.
  intros Heq.
  assert (deref
            (snd (get_weather defaults "2024-05-01T12:00:00+00:00" "New York"
                    __init__)) 1%positive !! "city"
          = deref __init__ 1%positive !! "city") as Hcity
    by (by rewrite Heq).
  vm_compute in Hcity. discriminate Hcity.
Qed.

(** C1, amended: a lookup of a city of the table writes the timestamp,
    the city and, exactly when the stored temperature exceeds the maximum,
    the warning on the stored record itself and returns that record, not a
    copy; every other key of the record, every other record and the table
    are left as they were.  A second lookup of the same city returns the
    same record, whose contents then differ from what the first lookup
    returned in the timestamp only. *)
Theorem get_weather_annotates_in_place settings cs now1 now2 city r :
  dict_get city (_weather_data (run settings cs __init__)) = Some r →
  ∃ self1 self2,
    get_weather settings now1 city (run settings cs __init__)
    = (Return r, self1) ∧
    get_weather settings now2 city self1 = (Return r, self2) ∧
    dict_get city (_weather_data self1) = Some r ∧
    deref self1 r !! "timestamp" = Some (VStr now1) ∧
    deref self1 r !! "city" = Some (VStr city) ∧
    (∃ temp,
       deref (run settings cs __init__) r !! "temp" = Some (VFloat temp) ∧
       deref self1 r !! "warning"
       = if PrimFloat.ltb (max_temperature settings) temp
         then Some (VStr "Temperature exceeds maximum threshold!")
         else None) ∧
    (∀ k, k ≠ "timestamp" → k ≠ "city" → k ≠ "warning" →
          deref self1 r !! k = deref (run settings cs __init__) r !! k) ∧
    (∀ r', r' ≠ r → deref self1 r' = deref (run settings cs __init__) r') ∧
    deref self2 r !! "timestamp" = Some (VStr now2) ∧
    (∀ k, k ≠ "timestamp" → deref self2 r !! k = deref self1 r !! k) ∧
    _weather_data self1 = _weather_data (run settings cs __init__) ∧
    _weather_data self2 = _weather_data self1 ∧
    (∀ r', r' ≠ r → deref self2 r' = deref self1 r').
Proof.
  intros Hget.
  set (cs1 := (cs ++ [GetWeather now1 city])%list).
  assert (run settings cs1 __init__
          = snd (get_weather settings now1 city (run settings cs __init__)))
    as Hrun1 by (unfold cs1; by rewrite run_app).
  destruct (get_weather_after_run settings cs now1 city r Hget)
    as (temp & humidity & condition & Hin & Htemp & Hcall1).
  rewrite Hcall1 in Hrun1. simpl in Hrun1.
  assert (dict_get city (_weather_data (run settings cs1 __init__)) = Some r)
    as Hget1 by (by rewrite Hrun1).
  destruct (get_weather_after_run settings cs1 now2 city r Hget1)
    as (temp' & humidity' & condition' & Hin' & Htemp' & Hcall2).
  rewrite Hrun1 in Htemp', Hcall2.
  pose proof (seed_data_functional _ _ _ Hin Hin') as [= <- <- <-].
  eexists _, _. split; [exact Hcall1|]. split; [exact Hcall2|].
  unfold deref, store in *. simpl in *.
  rewrite !lookup_total_insert_eq.
  pose proof (run_seeded settings cs __init__ (seeded_init settings)) as Hinv.
  destruct (annotated_lookups settings now1 city temp humidity condition)
    as (Hcity1 & Hstamp1 & _ & _ & _ & Hwarn1).
  destruct (annotated_lookups settings now2 city temp humidity condition)
    as (_ & Hstamp2 & _).
  split; [done|]. split; [done|]. split; [done|].
  split; [by exists temp|].
  split; [|split; [|split; [done|]]].
  - intros k ? ? ?.
    destruct (seed_values _ _ _ _ Hin) as (r1 & Hr1 & Hs1).
    rewrite (proj1 Hinv) in Hget. rewrite Hget in Hr1. injection Hr1 as <-.
    transitivity (seed temp humidity condition !! k).
    { unfold annotated.
      destruct (PrimFloat.ltb (max_temperature settings) temp);
        by simplify_map_eq. }
    destruct (proj2 Hinv _ _ Hget) as [Heq|[now0 Hnow0]]; unfold deref in *.
    + by rewrite Heq, Hs1.
    + destruct (annotate_fields _ _ _ _ _ Hnow0) as (_ & _ & ->); try done.
      by rewrite Hs1.
  - intros r' Hne. by rewrite lookup_total_insert_ne.
  - split; [|split; [done|split; [done|]]].
    + intros k Hk. unfold annotated.
      destruct (decide (k = "city")) as [->|]; [by simplify_map_eq|].
      by simplify_map_eq.
    + intros r' Hne. by rewrite !lookup_total_insert_ne.
Qed.

Lemma get_weather_annotates_in_place_witness :
  ∃ self1 self2,
    get_weather defaults "2024-05-01T12:00:00+00:00" "London"
      (run defaults [] __init__)
    = (Return 2%positive, self1) ∧
    get_weather defaults "2024-05-01T12:00:01+00:00" "London" self1
    = (Return 2%positive, self2) ∧
    dict_get "London" (_weather_data self1) = Some 2%positive ∧
    deref self1 2%positive !! "timestamp"
    = Some (VStr "2024-05-01T12:00:00+00:00") ∧
    deref self1 2%positive !! "city" = Some (VStr "London") ∧
    (∃ temp,
       deref (run defaults [] __init__) 2%positive !! "temp"
       = Some (VFloat temp) ∧
       deref self1 2%positive !! "warning"
       = if PrimFloat.ltb (max_temperature defaults) temp
         then Some (VStr "Temperature exceeds maximum threshold!")
         else None) ∧
    (∀ k, k ≠ "timestamp" → k ≠ "city" → k ≠ "warning" →
          deref self1 2%positive !! k
          = deref (run defaults [] __init__) 2%positive !! k) ∧
    (∀ r', r' ≠ 2%positive →
           deref self1 r' = deref (run defaults [] __init__) r') ∧
    deref self2 2%positive !! "timestamp"
    = Some (VStr "2024-05-01T12:00:01+00:00") ∧
    (∀ k, k ≠ "timestamp" →
          deref self2 2%positive !! k = deref self1 2%positive !! k) ∧
    _weather_data self1 = _weather_data (run defaults [] __init__) ∧
    _weather_data self2 = _weather_data self1 ∧
    (∀ r', r' ≠ 2%positive → deref self2 r' = deref self1 r').
Proof.
  apply (get_weather_annotates_in_place defaults []
           "2024-05-01T12:00:00+00:00" "2024-05-01T12:00:01+00:00"
           "London" 2%positive).
  reflexivity.
Defined.

(** ** The routes *)

(** C2, as the claim has it, fails under the default settings: the
    [debug_mode] of the info response is "False", with a capital, which is
    neither "true" nor "false". *)
Lemma get_api_info_default_debug_mode :
  ∃ d,
    routes.get_api_info defaults
    = {| routes.status_code := 200; routes.content := routes.str_dict_body d |} ∧
    d !! "debug_mode" = Some "False" ∧
    d !! "debug_mode" ≠ Some "true" ∧
    d !! "debug_mode" ≠ Some "false".
Proof. eexists. split; [reflexivity|]. by vm_compute. Qed.

(** C2, amended: the info route always answers 200 with the application
    name and the version of the settings and a [debug_mode] that is
    [str(settings.debug)]: the string "True" when debug is set and the
    string "False" when it is not. *)
Theorem get_api_info_fields settings :
  ∃ d,
    routes.get_api_info settings
    = {| routes.status_code := 200; routes.content := routes.str_dict_body d |} ∧
    d !! "app_name" = Some (app_name settings) ∧
    d !! "version" = Some (api_version settings) ∧
    d !! "debug_mode" = Some (if debug settings then "True" else "False") ∧
    ∀ k, is_Some (d !! k) → k = "app_name" ∨ k = "version" ∨ k = "debug_mode".
Proof.
  eexists. split; [reflexivity|]. repeat split; try by simplify_map_eq.
  intros k [v Hk].
  destruct (decide (k = "app_name")) as [->|]; [by left|].
  destruct (decide (k = "version")) as [->|]; [by right; left|].
  destruct (decide (k = "debug_mode")) as [->|]; [by right; right|].
  by simplify_map_eq.
Qed.

Lemma check_query_accepts name q x :
  routes.check_query name q x = []
  ↔ PrimFloat.leb (routes.ge q) x = true ∧ PrimFloat.leb x (routes.le q) = true.
Proof.
  unfold routes.check_query.
  destruct (PrimFloat.leb x (routes.le q)),
    (PrimFloat.leb (routes.ge q) x); simpl; split; try done;
    by intros [? ?].
Qed.

Lemma heat_index_route_accepted temperature humidity self :
  (routes.check_query "temperature" routes.temperature_query temperature
   ++ routes.check_query "humidity" routes.humidity_query humidity)%list = [] →
  routes.calculate_heat_index temperature humidity self
  = ({| routes.status_code := 200;
        routes.content :=
          routes.float_dict_body
            (<["temperature" := temperature]>
               (<["humidity" := humidity]>
                  (<["heat_index" :=
                       round (temperature + 0.5 * humidity)%float 2]> ∅))) |},
     self).
Proof. intros Hnil. unfold routes.calculate_heat_index. by rewrite Hnil. Qed.

Lemma heat_index_route_rejected temperature humidity self :
  (routes.check_query "temperature" routes.temperature_query temperature
   ++ routes.check_query "humidity" routes.humidity_query humidity)%list ≠ [] →
  routes.calculate_heat_index temperature humidity self
  = ({| routes.status_code := 422;
        routes.content :=
          routes.validation_body
            (routes.check_query "temperature" routes.temperature_query
               temperature
             ++ routes.check_query "humidity" routes.humidity_query
                  humidity)%list |},
     self).
Proof.
  intros Hne. unfold routes.calculate_heat_index.
  by destruct (_ ++ _)%list.
Qed.

(** C6: for a temperature and a humidity that are numbers, the heat-index
    route answers 422, with a non-empty list of validation errors as its
    body, exactly when the temperature is not within [-50, 150] or the
    humidity is not within [0, 100]; for a pair within both ranges it
    answers 200 with the two inputs as given and the heat index the
    service computes for them.  The service is not changed either way. *)
Theorem heat_index_route_validates temperature humidity self :
  PrimFloat.is_nan temperature = false →
  PrimFloat.is_nan humidity = false →
  let temperature_ok :=
    PrimFloat.leb (-50) temperature = true ∧
    PrimFloat.leb temperature 150 = true in
  let humidity_ok :=
    PrimFloat.leb 0 humidity = true ∧ PrimFloat.leb humidity 100 = true in
  let answer := routes.calculate_heat_index temperature humidity self in
  snd answer = self ∧
  (routes.status_code (fst answer) = 422
   ↔ ¬ temperature_ok ∨ ¬ humidity_ok) ∧
  (¬ temperature_ok ∨ ¬ humidity_ok →
   ∃ errors,
     fst answer
     = {| routes.status_code := 422;
          routes.content := routes.validation_body errors |} ∧
     errors ≠ []) ∧
  (temperature_ok ∧ humidity_ok →
   ∃ heat_index d,
     calculate_heat_index temperature humidity self = (Return heat_index, self) ∧
     fst answer
     = {| routes.status_code := 200;
          routes.content := routes.float_dict_body d |} ∧
     d !! "temperature" = Some temperature ∧
     d !! "humidity" = Some humidity ∧
     d !! "heat_index" = Some heat_index).
Proof.
  intros _ _ temperature_ok humidity_ok answer.
  assert ((routes.check_query "temperature" routes.temperature_query
             temperature
           ++ routes.check_query "humidity" routes.humidity_query
                humidity)%list = [] ↔ temperature_ok ∧ humidity_ok) as Hnil.
  { rewrite app_nil, !check_query_accepts. done. }
  assert (¬ (temperature_ok ∧ humidity_ok)
          ↔ ¬ temperature_ok ∨ ¬ humidity_ok) as Hout.
  { subst temperature_ok humidity_ok.
    destruct (PrimFloat.leb (-50) temperature),
      (PrimFloat.leb temperature 150), (PrimFloat.leb 0 humidity),
      (PrimFloat.leb humidity 100); intuition congruence. }
  subst answer.
  destruct (decide ((routes.check_query "temperature"
                       routes.temperature_query temperature
                     ++ routes.check_query "humidity" routes.humidity_query
                          humidity)%list = [])) as [Hok|Hbad].
  - rewrite (heat_index_route_accepted _ _ _ Hok). simpl.
    split; [done|]. split; [split; [done|]; tauto|].
    split; [tauto|]. intros _.
    eexists _, _. split; [reflexivity|]. split; [reflexivity|].
    repeat split; by simplify_map_eq.
  - rewrite (heat_index_route_rejected _ _ _ Hbad). simpl.
    split; [done|]. split; [split; [tauto|done]|].
    split; [|tauto]. intros _. by eexists.
Qed.

Lemma heat_index_route_validates_witness :
  let temperature_ok :=
    PrimFloat.leb (-50) 75 = true ∧ PrimFloat.leb 75 150 = true in
  let humidity_ok :=
    PrimFloat.leb 0 60 = true ∧ PrimFloat.leb 60 100 = true in
  let answer := routes.calculate_heat_index 75 60 __init__ in
  snd answer = __init__ ∧
  (routes.status_code (fst answer) = 422
   ↔ ¬ temperature_ok ∨ ¬ humidity_ok) ∧
  (¬ temperature_ok ∨ ¬ humidity_ok →
   ∃ errors,
     fst answer
     = {| routes.status_code := 422;
          routes.content := routes.validation_body errors |} ∧
     errors ≠ []) ∧
  (temperature_ok ∧ humidity_ok →
   ∃ heat_index d,
     calculate_heat_index 75 60 __init__ = (Return heat_index, __init__) ∧
     fst answer
     = {| routes.status_code := 200;
          routes.content := routes.float_dict_body d |} ∧
     d !! "temperature" = Some 75%float ∧
     d !! "humidity" = Some 60%float ∧
     d !! "heat_index" = Some heat_index).
Proof.
  apply (heat_index_route_validates 75 60 __init__); reflexivity.
Defined.

(** The requests of the route's tests. *)
Example heat_index_route_examples :
  fst (routes.calculate_heat_index 75 60 __init__)
  = {| routes.status_code := 200;
       routes.content :=
         routes.float_dict_body
           (<["temperature" := 75%float]>
              (<["humidity" := 60%float]>
                 (<["heat_index" := 105%float]> ∅))) |} ∧
  routes.status_code (fst (routes.calculate_heat_index 200 60 __init__)) = 422 ∧
  routes.status_code (fst (routes.calculate_heat_index 75 150 __init__)) = 422.
Proof. repeat split; reflexivity. Qed.

(** ** The heat index *)

(** [div_half_even n d] is the integer nearest to [n / d], and the even
    one of the two nearest when [n / d] lies half-way between them. *)
Lemma div_half_even_nearest n d :
  0 < d →
  2 * Z.abs (n - div_half_even n d * d) ≤ d ∧
  (2 * Z.abs (n - div_half_even n d * d) = d →
   Z.even (div_half_even n d) = true).
Proof.
  intros Hd. unfold div_half_even.
  pose proof (Z.div_mod n d ltac:(lia)) as Hdiv.
  pose proof (Z.mod_pos_bound n d Hd) as Hmod.
  set (q := n / d) in *. set (m := n mod d) in *.
  destruct (Z.compare_spec (2 * m) d) as [Heq|Hlt|Hgt].
  - destruct (Z.even q) eqn:Heven.
    + split; [lia|done].
    + split; [lia|]. intros _.
      replace (q + 1) with (Z.succ q) by lia.
      by rewrite Z.even_succ, <- Z.negb_even, Heven.
  - split; lia.
  - split; lia.
Qed.

Lemma div_half_even_nonneg n d : 0 ≤ n → 0 < d → 0 ≤ div_half_even n d.
Proof.
  intros Hn Hd. unfold div_half_even.
  pose proof (Z.div_pos n d Hn Hd).
  destruct (2 * (n mod d) ?= d); [destruct (Z.even (n / d))|..]; lia.
Qed.

Lemma scaled_den_pos e : 0 < scaled_den e.
Proof. unfold scaled_den. apply Z.pow_pos_nonneg; lia. Qed.

Lemma scaled_num_nonneg mant e ndigits : 0 ≤ scaled_num mant e ndigits.
Proof.
  unfold scaled_num.
  assert (0 ≤ 2 ^ Z.max e 0) by (apply Z.pow_nonneg; lia).
  assert (0 ≤ 10 ^ Z.of_N ndigits) by (apply Z.pow_nonneg; lia).
  nia.
Qed.

(** ** Rounding to the nearest float *)

Lemma digits2_pos_spec p :
  2 ^ (Z.pos (digits2_pos p) - 1) ≤ Z.pos p < 2 ^ Z.pos (digits2_pos p).
Proof.
  induction p as [p IH|p IH|]; simpl digits2_pos.
  - rewrite Pos2Z.inj_succ.
    replace (Z.succ (Z.pos (digits2_pos p)) - 1) with
      (Z.succ (Z.pos (digits2_pos p) - 1)) by lia.
    rewrite !Z.pow_succ_r by lia. lia.
  - rewrite Pos2Z.inj_succ.
    replace (Z.succ (Z.pos (digits2_pos p)) - 1) with
      (Z.succ (Z.pos (digits2_pos p) - 1)) by lia.
    rewrite !Z.pow_succ_r by lia. lia.
  - simpl. lia.
Qed.

Lemma digits2_pos_bits p n :
  0 < n → 2 ^ (n - 1) ≤ Z.pos p < 2 ^ n → Z.pos (digits2_pos p) = n.
Proof.
  intros Hn [Hlo Hhi]. destruct (digits2_pos_spec p) as [Hlo' Hhi'].
  assert (n - 1 < Z.pos (digits2_pos p)) as H1.
  { apply (Z.pow_lt_mono_r_iff 2); lia. }
  assert (Z.pos (digits2_pos p) - 1 < n) as H2.
  { apply (Z.pow_lt_mono_r_iff 2); lia. }
  lia.
Qed.

(** A mantissa of 53 bits with an exponent in range is a binary64
    number. *)
Lemma valid_normal s p e :
  2 ^ 52 ≤ Z.pos p < 2 ^ 53 → -1074 ≤ e ≤ 971 →
  valid_binary (S754_finite s p e) = true.
Proof.
  intros Hp He. simpl. unfold bounded, canonical_mantissa, fexp, emin.
  rewrite (digits2_pos_bits p 53) by (simpl; lia).
  apply andb_true_intro. split.
  - apply Z.eqb_eq. unfold prec, emax. lia.
  - apply Z.leb_le. unfold prec, emax. lia.
Qed.

(** The magnitude of a quotient, read off its integer part. *)
Lemma log2_quotient N d :
  0 < d → d ≤ N →
  0 ≤ Z.log2 (N / d) ∧
  d * 2 ^ Z.log2 (N / d) ≤ N < d * 2 ^ (Z.log2 (N / d) + 1).
Proof.
  intros Hd HN.
  assert (1 ≤ N / d) as Hq by (apply Z.div_le_lower_bound; lia).
  destruct (Z.log2_spec (N / d) ltac:(lia)) as [Hlo Hhi].
  pose proof (Z.mul_div_le N d Hd).
  pose proof (Z.mul_succ_div_gt N d Hd).
  split; [apply Z.log2_nonneg|].
  replace (Z.log2 (N / d) + 1) with (Z.succ (Z.log2 (N / d))) by lia.
  split; nia.
Qed.

(** The nearest integer to a quotient between [a] and [b] lies between
    [a] and [b]. *)
Lemma div_half_even_between N D a b :
  0 < D → a * D ≤ N → N < b * D → a ≤ div_half_even N D ≤ b.
Proof.
  intros HD Hlo Hhi.
  destruct (div_half_even_nearest N D HD) as [Hnear _].
  set (m := div_half_even N D) in *.
  split.
  - destruct (Z_le_gt_dec a m) as [|Hgt]; [done|]. exfalso.
    assert (m + 1 ≤ a) by lia. nia.
  - destruct (Z_le_gt_dec m b) as [|Hgt]; [done|]. exfalso.
    assert (b + 1 ≤ m) by lia. nia.
Qed.

(** For a quotient in the range of the normal binary64 numbers,
    [nearest_SF] is the number [m * 2^E], counted in units of [2^-1074],
    whose exponent is the magnitude of the quotient and whose mantissa
    is the quotient divided by [2^E] and rounded to the nearest integer,
    ties to even; it is a binary64 number. *)
Lemma nearest_SF_normal s n d :
  0 < d →
  d * 2 ^ 52 ≤ n * 2 ^ 1074 →
  2 * (n * 2 ^ 1074) < d * (2 ^ 54 - 1) * 2 ^ 2045 →
  ∃ E m,
    0 ≤ E ≤ 2045 ∧
    d * 2 ^ (E + 52) ≤ n * 2 ^ 1074 < d * 2 ^ (E + 53) ∧
    2 * Z.abs (n * 2 ^ 1074 - m * (d * 2 ^ E)) ≤ d * 2 ^ E ∧
    (2 * Z.abs (n * 2 ^ 1074 - m * (d * 2 ^ E)) = d * 2 ^ E →
     Z.even m = true) ∧
    nearest_SF s n d
    = S754_finite s (Z.to_pos (if m =? 2 ^ 53 then 2 ^ 52 else m))
        ((if m =? 2 ^ 53 then E + 1 else E) - 1074) ∧
    valid_binary (nearest_SF s n d) = true.
Proof.
  intros Hd Hlo Hhi. unfold nearest_SF.
  remember (n * 2 ^ 1074) as N eqn:HN. clear HN n.
  assert (0 < 2 ^ 52) as H52 by (by apply Z.pow_pos_nonneg).
  assert (d ≤ N) as HdN by nia.
  destruct (log2_quotient N d Hd HdN) as (HL0 & HLlo & HLhi).
  set (L := Z.log2 (N / d)) in *.
  assert (52 ≤ L) as HL52.
  { assert (2 ^ 52 < 2 ^ (L + 1)) as Hpow by nia.
    apply Z.pow_lt_mono_r_iff in Hpow; lia. }
  assert (N < d * 2 ^ 2098) as Hhi'.
  { replace (2 ^ 2098) with (2 ^ 53 * 2 ^ 2045)
      by (rewrite <- Z.pow_add_r by lia; done).
    assert (0 < 2 ^ 2045) by (by apply Z.pow_pos_nonneg).
    replace (2 ^ 54) with (2 * 2 ^ 53) in Hhi
      by (change 54 with (Z.succ 53); by rewrite Z.pow_succ_r).
    nia. }
  assert (L < 2098) as HL2098.
  { assert (2 ^ L < 2 ^ 2098) as Hpow by nia.
    apply Z.pow_lt_mono_r_iff in Hpow; lia. }
  rewrite (Z.max_l (L - 52) 0) by lia.
  set (E := L - 52) in *.
  assert (0 < 2 ^ E) as HE by (apply Z.pow_pos_nonneg; lia).
  assert (2 ^ (E + 52) = 2 ^ 52 * 2 ^ E) as Hlow
    by (rewrite Z.pow_add_r by lia; lia).
  assert (2 ^ (E + 53) = 2 ^ 53 * 2 ^ E) as Hupp
    by (rewrite Z.pow_add_r by lia; lia).
  assert (E + 52 = L) as HEL by (unfold E; lia).
  assert (E + 53 = L + 1) as HEL1 by (unfold E; lia).
  assert (0 < d * 2 ^ E) as HD by nia.
  destruct (div_half_even_nearest N (d * 2 ^ E) HD) as [Hnear Htie].
  destruct (div_half_even_between N (d * 2 ^ E) (2 ^ 52) (2 ^ 53) HD)
    as [Hmlo Hmhi].
  { rewrite <- HEL in HLlo. rewrite Hlow in HLlo. lia. }
  { rewrite <- HEL1 in HLhi. rewrite Hupp in HLhi. lia. }
  set (m := div_half_even N (d * 2 ^ E)) in *.
  exists E, m.
  split; [unfold E; lia|].
  split; [rewrite HEL, HEL1; lia|].
  split; [done|]. split; [done|].
  assert ((if m =? 2 ^ 53 then E + 1 else E) ≤ 2045) as HE'.
  { destruct (Z.eqb_spec m (2 ^ 53)) as [Hm|_]; [|unfold E; lia].
    destruct (Z_le_gt_dec (E + 1) 2045) as [|Hgt]; [done|]. exfalso.
    assert (E = 2045) as HE2045 by (unfold E in *; lia).
    rewrite HE2045, Hm in Hnear.
    assert (0 < 2 ^ 2045) by (by apply Z.pow_pos_nonneg).
    replace (2 ^ 54) with (2 * 2 ^ 53) in Hhi
      by (change 54 with (Z.succ 53); by rewrite Z.pow_succ_r).
    nia. }
  assert (2 ^ 52 ≤ (if m =? 2 ^ 53 then 2 ^ 52 else m) < 2 ^ 53) as Hm'.
  { destruct (Z.eqb_spec m (2 ^ 53)); lia. }
  assert (0 ≤ (if m =? 2 ^ 53 then E + 1 else E)) as HE0.
  { destruct (m =? 2 ^ 53); unfold E; lia. }
  destruct (if m =? 2 ^ 53 then 2 ^ 52 else m) as [|p|p] eqn:Hp; [lia| |lia].
  apply Z.leb_le in HE'. rewrite HE'. split; [done|].
  apply valid_normal; [lia|]. apply Z.leb_le in HE'. lia.
Qed.

Lemma div_half_even_le N D b :
  0 < D → N ≤ b * D → div_half_even N D ≤ b.
Proof.
  intros HD Hhi.
  destruct (div_half_even_nearest N D HD) as [Hnear _].
  set (m := div_half_even N D) in *.
  destruct (Z_le_gt_dec m b) as [|Hgt]; [done|]. exfalso.
  assert (b + 1 ≤ m) by lia. nia.
Qed.

(** The mantissa and the exponent of a float are those of a binary64
    number. *)
Lemma finite_float_bounds x s mant e :
  Prim2SF x = S754_finite s mant e →
  Z.pos mant < 2 ^ 53 ∧ -1074 ≤ e ≤ 971.
Proof.
  intros Hx. pose proof (Prim2SF_valid x) as Hvalid.
  rewrite Hx in Hvalid. simpl in Hvalid.
  unfold bounded, canonical_mantissa, fexp, emin, FloatOps.prec,
    FloatOps.emax in Hvalid.
  apply andb_prop in Hvalid as [Hcanon He].
  apply Z.eqb_eq in Hcanon. apply Z.leb_le in He.
  destruct (digits2_pos_spec mant) as [_ Hhi].
  assert (Z.pos (digits2_pos mant) ≤ 53) as Hdigits by lia.
  split; [|lia].
  eapply Z.lt_le_trans; [exact Hhi|].
  apply Z.pow_le_mono_r; lia.
Qed.

(** The number of hundredths in the magnitude of a float, rounded to the
    nearest integer, is below the range where binary64 overflows. *)
Lemma hundredths_bound x s mant e :
  Prim2SF x = S754_finite s mant e →
  div_half_even (scaled_num mant e 2) (scaled_den e)
  ≤ 100 * ((2 ^ 53 - 1) * 2 ^ 971).
Proof.
  intros Hx. destruct (finite_float_bounds x s mant e Hx) as [Hmant He].
  pose proof (scaled_den_pos e) as Hden.
  apply div_half_even_le; [done|].
  unfold scaled_num. change (10 ^ Z.of_N 2) with 100.
  assert (0 < 2 ^ Z.max e 0 ≤ 2 ^ 971) as Hpow.
  { split; [apply Z.pow_pos_nonneg; lia|apply Z.pow_le_mono_r; lia]. }
  assert (Z.pos mant * 2 ^ Z.max e 0 ≤ (2 ^ 53 - 1) * 2 ^ 971) as Hval.
  { apply Z.mul_le_mono_nonneg; lia. }
  assert (0 ≤ (2 ^ 53 - 1) * 2 ^ 971) by lia.
  nia.
Qed.

(** C5, as the claim has it, fails: the claim's formula is over the
    reals, the code adds floats.  For [t = 0.125] and [h = 2^-56] the real
    sum [0.125 + 2^-57] lies above the tie and rounds to 0.13 under either
    rule, while the float sum is 0.125 exactly, a tie, which goes to the
    even digit: the code returns 0.12. *)
Lemma calculate_heat_index_not_real_formula :
  calculate_heat_index 0.125 0x1p-56 __init__ = (Return 0.12%float, __init__) ∧
  (0.125 + 0.5 * 0x1p-56)%float = 0.125%float ∧
  real_formula.heat_index_hundredths div_half_even 0.125 0x1p-56 = Some 13 ∧
  real_formula.heat_index_hundredths real_formula.div_half_away 0.125 0x1p-56
  = Some 13 ∧
  of_decimal false 13 2 = 0.13%float ∧
  0.12%float ≠ 0.13%float.
Proof.
  repeat split; try reflexivity.
  intros Heq. apply (f_equal Prim2SF) in Heq. vm_compute in Heq.
  discriminate Heq.
Qed.

(** C5, amended: [calculate_heat_index(t, h)] returns the float sum
    [t + 0.5 * h], as binary64 addition rounds it, rounded to 2 decimal
    places on its exact value with ties to even, as the nearest float;
    it changes nothing.  When the sum is a non-zero number of sign [s]
    and magnitude [mant * 2^e], 100 times the magnitude is the fraction
    [num / den] below; let [k] be the integer nearest to it, the even one
    on a tie.  If [k] is 0 the result is the zero of sign [s].  Otherwise
    the result is the binary64 number of sign [s] nearest to [k / 100]:
    counting in units of [2^-1074], [k / 100] lies between [2^(E+52)] and
    [2^(E+53)], [m] is the integer nearest to [k / 100] divided by [2^E],
    the even one on a tie, and the result has mantissa [m] and exponent
    [E - 1074], or mantissa [2^52] and the next exponent when [m] is
    [2^53].  A sum that is zero, infinite or not a number is returned as
    it is.  In particular the heat index of 75 and 60 is 105.0. *)
Theorem calculate_heat_index_rounds temperature humidity self :
  let sum := (temperature + 0.5 * humidity)%float in
  ∃ heat_index,
    calculate_heat_index temperature humidity self
    = (Return heat_index, self) ∧
    match Prim2SF sum with
    | S754_finite s mant e =>
        let num := Z.pos mant * 2 ^ Z.max e 0 * 100 in
        let den := 2 ^ Z.max (- e) 0 in
        ∃ k,
          0 ≤ k ∧
          2 * Z.abs (num - k * den) ≤ den ∧
          (2 * Z.abs (num - k * den) = den → Z.even k = true) ∧
          (k = 0 → Prim2SF heat_index = S754_zero s) ∧
          (0 < k →
           ∃ E m,
             0 ≤ E ≤ 2045 ∧
             100 * 2 ^ (E + 52) ≤ k * 2 ^ 1074 < 100 * 2 ^ (E + 53) ∧
             2 * Z.abs (k * 2 ^ 1074 - m * (100 * 2 ^ E)) ≤ 100 * 2 ^ E ∧
             (2 * Z.abs (k * 2 ^ 1074 - m * (100 * 2 ^ E)) = 100 * 2 ^ E →
              Z.even m = true) ∧
             Prim2SF heat_index
             = S754_finite s
                 (Z.to_pos (if m =? 2 ^ 53 then 2 ^ 52 else m))
                 ((if m =? 2 ^ 53 then E + 1 else E) - 1074))
    | _ => heat_index = sum
    end ∧
    calculate_heat_index 75 60 self = (Return 105%float, self).
Proof.
  intros sum. exists (round sum 2). split; [reflexivity|].
  split; [|reflexivity].
  unfold round. destruct (Prim2SF sum) as [| | |s mant e] eqn:Hsum; try done.
  lazy zeta.
  change (Z.pos mant * 2 ^ Z.max e 0 * 100) with (scaled_num mant e 2).
  change (2 ^ Z.max (- e) 0) with (scaled_den e).
  set (k := div_half_even (scaled_num mant e 2) (scaled_den e)).
  exists k.
  split; [apply div_half_even_nonneg;
            [apply scaled_num_nonneg|apply scaled_den_pos]|].
  destruct (div_half_even_nearest (scaled_num mant e 2) (scaled_den e)
              (scaled_den_pos e)) as [Hnear Htie].
  split; [done|]. split; [done|].
  unfold of_decimal. change (10 ^ Z.of_N 2) with 100. split.
  - intros ->. by apply Prim2SF_SF2Prim.
  - intros Hk.
    pose proof (hundredths_bound sum s mant e Hsum) as Hbound. fold k in Hbound.
    assert (0 < 2 ^ 2045) as H2045 by (by apply Z.pow_pos_nonneg).
    assert (2 ^ 1074 = 2 ^ 52 * 2 ^ 1022) as H1074
      by (rewrite <- Z.pow_add_r by lia; done).
    assert (100 ≤ 2 ^ 1022) as H1022.
    { transitivity (2 ^ 7); [done|]. apply Z.pow_le_mono_r; lia. }
    assert (2 ^ 971 * 2 ^ 1074 = 2 ^ 2045) as Hmax
      by (rewrite <- Z.pow_add_r by lia; done).
    destruct (nearest_SF_normal s k 100)
      as (E & m & HE & Hbin & Hm & Hmtie & Heq & Hvalid).
    + lia.
    + rewrite H1074. assert (0 < 2 ^ 52) by done. nia.
    + assert (k * 2 ^ 1074 ≤ 100 * ((2 ^ 53 - 1) * 2 ^ 971) * 2 ^ 1074) as Hk'
        by (apply Z.mul_le_mono_nonneg_r; lia).
      replace (100 * ((2 ^ 53 - 1) * 2 ^ 971) * 2 ^ 1074)
        with (100 * (2 ^ 53 - 1) * 2 ^ 2045) in Hk' by (rewrite <- Hmax; ring).
      replace (2 ^ 54) with (2 * 2 ^ 53)
        by (change 54 with (Z.succ 53); by rewrite Z.pow_succ_r).
      nia.
    + exists E, m. repeat (split; [done|]).
      rewrite (Prim2SF_SF2Prim _ Hvalid). exact Heq.
Qed.

(** Decimal ties go to the even digit, and a float just below a tie is
    rounded down. *)
Example round_examples :
  round 0.125 2 = 0.12%float ∧ round 0.375 2 = 0.38%float ∧
  round 2.675 2 = 2.67%float ∧ round (-0.125) 2 = (-0.12)%float.
Proof. repeat split; reflexivity. Qed.

(** * Further properties of the service *)

(** ** A lookup on any state of the service *)

(** A lookup that returns has found the reference in the table and has
    replaced the object it points to by its annotation. *)
Lemma get_weather_return_inv settings now city self r self' :
  get_weather settings now city self = (Return r, self') →
  dict_get city (_weather_data self) = Some r ∧
  truthy (deref self r) = true ∧
  ∃ d,
    annotate settings now city (deref self r) = Return d ∧
    self' = store r d self.
Proof.
  destruct (dict_get city (_weather_data self)) as [r0|] eqn:Hget.
  2: { by rewrite get_weather_absent. }
  destruct (truthy (deref self r0)) eqn:Hd.
  2: { by rewrite (get_weather_falsy settings now city self r0 Hget Hd). }
  rewrite (get_weather_present settings now city self r0 Hget Hd).
  destruct (annotate settings now city (deref self r0)) as [d|e] eqn:Hann;
    [|done].
  intros [= <- <-]. split; [done|]. split; [done|]. by exists d.
Qed.

Lemma store_frame r d self :
  _weather_data (store r d self) = _weather_data self ∧
  deref (store r d self) r = d ∧
  ∀ r', r' ≠ r → deref (store r d self) r' = deref self r'.
Proof.
  unfold deref, store. simpl. split; [done|]. split.
  - by rewrite lookup_total_insert_eq.
  - intros r' Hne. by rewrite lookup_total_insert_ne.
Qed.

(** X1: whenever [get_weather] returns, in whatever state it was called,
    the reference it returns is the one the table holds for the city; the
    record then carries the city asked for and the clock reading of the
    call; its keys other than [city], [timestamp] and [warning], every
    other object and the table are as before. *)
Theorem get_weather_returned settings now city self r self' :
  get_weather settings now city self = (Return r, self') →
  dict_get city (_weather_data self) = Some r ∧
  _weather_data self' = _weather_data self ∧
  deref self' r !! "city" = Some (VStr city) ∧
  deref self' r !! "timestamp" = Some (VStr now) ∧
  (∀ k, k ≠ "city" → k ≠ "timestamp" → k ≠ "warning" →
        deref self' r !! k = deref self r !! k) ∧
  (∀ r', r' ≠ r → deref self' r' = deref self r').
Proof.
  intros Hcall.
  apply get_weather_return_inv in Hcall as (Hget & _ & d & Hann & ->).
  destruct (annotate_fields settings now city _ d Hann) as (Hcity & Hnow & Hrest).
  destruct (store_frame r d self) as (Htable & Hr & Hframe).
  rewrite Hr. done.
Qed.

Lemma get_weather_returned_witness :
  let self' :=
    snd (get_weather defaults "2024-05-01T12:00:00+00:00" "Sydney" __init__)
  in
  dict_get "Sydney" (_weather_data __init__) = Some 4%positive ∧
  _weather_data self' = _weather_data __init__ ∧
  deref self' 4%positive !! "city" = Some (VStr "Sydney") ∧
  deref self' 4%positive !! "timestamp"
  = Some (VStr "2024-05-01T12:00:00+00:00") ∧
  (∀ k, k ≠ "city" → k ≠ "timestamp" → k ≠ "warning" →
        deref self' 4%positive !! k = deref __init__ 4%positive !! k) ∧
  (∀ r', r' ≠ 4%positive → deref self' r' = deref __init__ r').
Proof.
  apply (get_weather_returned defaults "2024-05-01T12:00:00+00:00" "Sydney"
           __init__ 4%positive).
  reflexivity.
Defined.

(** X2: whatever [get_weather] raises, it raises before it writes: the
    service is left exactly as it was.  The only exceptions it raises are
    the not-found [ValueError], [KeyError] for the key [temp] and
    [TypeError]. *)
Theorem get_weather_raises_before_writing settings now city self e self' :
  get_weather settings now city self = (Raise e, self') →
  self' = self ∧
  (e = ValueError (not_found city) ∨ e = KeyError "temp" ∨ e = TypeError).
Proof.
  destruct (dict_get city (_weather_data self)) as [r|] eqn:Hget.
  2: { rewrite get_weather_absent by done. intros [= <- <-]. auto. }
  destruct (truthy (deref self r)) eqn:Hd.
  2: { rewrite (get_weather_falsy settings now city self r Hget Hd).
       intros [= <- <-]. auto. }
  rewrite (get_weather_present settings now city self r Hget Hd).
  unfold annotate.
  destruct (deref self r !! "temp") as [[x|n|s]|]; simpl;
    intros [= <- <-]; auto.
Qed.

Lemma get_weather_raises_before_writing_witness :
  __init__ = __init__ ∧
  (ValueError "Weather data not found for city: new york"
   = ValueError (not_found "new york") ∨
   ValueError "Weather data not found for city: new york" = KeyError "temp" ∨
   ValueError "Weather data not found for city: new york" = TypeError).
Proof.
  apply (get_weather_raises_before_writing defaults
           "2024-05-01T12:00:00+00:00" "new york" __init__
           (ValueError "Weather data not found for city: new york") __init__).
  reflexivity.
Defined.

(** ** Records the service was not built with *)

(** X3: a city whose stored record is empty is answered as if the city
    were unknown: the test [if not weather] does not tell an empty record
    from a missing one.  The not-found error is raised, nothing is
    written, and the route answers 404. *)
Theorem empty_record_not_found settings now city self r :
  dict_get city (_weather_data self) = Some r →
  deref self r = ∅ →
  get_weather settings now city self
  = (Raise (ValueError ("Weather data not found for city: " +:+ city)), self) ∧
  routes.get_weather settings now city self
  = ({| routes.status_code := 404;
        routes.content :=
          routes.detail_body ("Weather data not found for city: " +:+ city) |},
     self).
Proof.
  intros Hget Hempty.
  assert (truthy (deref self r) = false) as Hd by (by rewrite Hempty).
  unfold routes.get_weather.
  by rewrite (get_weather_falsy settings now city self r Hget Hd).
Qed.

Lemma empty_record_not_found_witness :
  let self :=
    {| heap := <[1%positive := ∅]> ∅;
       _weather_data := [("Atlantis", 1%positive)] |} in
  get_weather defaults "2024-05-01T12:00:00+00:00" "Atlantis" self
  = (Raise (ValueError "Weather data not found for city: Atlantis"), self) ∧
  routes.get_weather defaults "2024-05-01T12:00:00+00:00" "Atlantis" self
  = ({| routes.status_code := 404;
        routes.content :=
          routes.detail_body "Weather data not found for city: Atlantis" |},
     self).
Proof.
  apply (empty_record_not_found defaults "2024-05-01T12:00:00+00:00"
           "Atlantis"
           {| heap := <[1%positive := ∅]> ∅;
              _weather_data := [("Atlantis", 1%positive)] |} 1%positive);
    reflexivity.
Defined.

(** X4: a stored record that is not empty but has no [temp] makes
    [get_weather] raise [KeyError] for that key, before anything is
    written.  The route catches [ValueError] only, so this failure is not
    turned into the 404 answer: it reaches the framework, which answers
    500. *)
Theorem record_without_temp settings now city self r :
  dict_get city (_weather_data self) = Some r →
  truthy (deref self r) = true →
  deref self r !! "temp" = None →
  get_weather settings now city self = (Raise (KeyError "temp"), self) ∧
  routes.get_weather settings now city self
  = ({| routes.status_code := 500;
        routes.content := routes.server_error_body |}, self).
Proof.
  intros Hget Hd Htemp. unfold routes.get_weather.
  rewrite (get_weather_present settings now city self r Hget Hd).
  unfold annotate. by rewrite Htemp.
Qed.

Lemma record_without_temp_witness :
  let self :=
    {| heap := <[1%positive := <["humidity" := VInt 40]> ∅]> ∅;
       _weather_data := [("Oslo", 1%positive)] |} in
  get_weather defaults "2024-05-01T12:00:00+00:00" "Oslo" self
  = (Raise (KeyError "temp"), self) ∧
  routes.get_weather defaults "2024-05-01T12:00:00+00:00" "Oslo" self
  = ({| routes.status_code := 500;
        routes.content := routes.server_error_body |}, self).
Proof.
  apply (record_without_temp defaults "2024-05-01T12:00:00+00:00" "Oslo"
           {| heap := <[1%positive := <["humidity" := VInt 40]> ∅]> ∅;
              _weather_data := [("Oslo", 1%positive)] |} 1%positive);
    reflexivity.
Defined.

(** ** The warning on a stored record *)

(** X5: [get_weather] only ever adds the warning.  When it returns, the
    record's warning is the advisory text if the stored temperature is
    above the maximum, and otherwise whatever warning the stored record
    had before the call: a warning written by an earlier call is not
    taken off when the temperature is no longer above the maximum. *)
Theorem get_weather_keeps_warning settings now city self r self' :
  get_weather settings now city self = (Return r, self') →
  ∃ temp hot,
    deref self r !! "temp" = Some temp ∧
    gt_float temp (max_temperature settings) = Return hot ∧
    deref self' r !! "warning"
    = if hot then Some (VStr "Temperature exceeds maximum threshold!")
      else deref self r !! "warning".
Proof.
  intros Hcall.
  apply get_weather_return_inv in Hcall as (_ & _ & d & Hann & ->).
  apply annotate_inv in Hann as (temp & hot & Htemp & Hhot & ->).
  exists temp, hot. split; [done|]. split; [done|].
  destruct (store_frame r
              (<["city" := VStr city]>
                 (<["timestamp" := VStr now]>
                    (if hot
                     then <["warning" := VStr warning_text]> (deref self r)
                     else deref self r))) self) as (_ & -> & _).
  destruct hot; by simplify_map_eq.
Qed.

(** A warning written while the maximum was 70 is still on New York's
    record after a lookup made with the default maximum of 100. *)
Lemma get_weather_keeps_warning_witness :
  let cool :=
    {| app_name := "Weather API"; config.debug := false; api_version := "v1";
       max_temperature := 70%float |} in
  let self := run cool [GetWeather "2024-05-01T11:00:00+00:00" "New York"]
                __init__ in
  let self' :=
    snd (get_weather defaults "2024-05-01T12:00:00+00:00" "New York" self) in
  ∃ temp hot,
    deref self 1%positive !! "temp" = Some temp ∧
    gt_float temp (max_temperature defaults) = Return hot ∧
    deref self' 1%positive !! "warning"
    = if hot then Some (VStr "Temperature exceeds maximum threshold!")
      else deref self 1%positive !! "warning".
Proof.
  apply (get_weather_keeps_warning defaults "2024-05-01T12:00:00+00:00"
           "New York"
           (run {| app_name := "Weather API"; config.debug := false;
                   api_version := "v1"; max_temperature := 70%float |}
              [GetWeather "2024-05-01T11:00:00+00:00" "New York"] __init__)
           1%positive).
  reflexivity.
Defined.

Example stale_warning :
  let cool :=
    {| app_name := "Weather API"; config.debug := false; api_version := "v1";
       max_temperature := 70%float |} in
  let self := run cool [GetWeather "2024-05-01T11:00:00+00:00" "New York"]
                __init__ in
  let self' :=
    snd (get_weather defaults "2024-05-01T12:00:00+00:00" "New York" self) in
  PrimFloat.ltb (max_temperature defaults) 72.5 = false ∧
  deref self' 1%positive !! "warning"
  = Some (VStr "Temperature exceeds maximum threshold!").
Proof. split; reflexivity. Qed.

(** ** How lookups compose *)

(** X6: the latest lookup wins.  A lookup made right after a lookup of
    the same city returns what it would have returned, and leaves the
    service as it would have left it, had the earlier lookup not been
    made; this holds in every state, whether the lookups return or
    raise. *)
Theorem get_weather_twice settings now1 now2 city self :
  get_weather settings now2 city (snd (get_weather settings now1 city self))
  = get_weather settings now2 city self.
Proof.
  destruct (dict_get city (_weather_data self)) as [r|] eqn:Hget.
  2: { by rewrite (get_weather_absent settings now1 city self Hget). }
  destruct (truthy (deref self r)) eqn:Hd.
  2: { by rewrite (get_weather_falsy settings now1 city self r Hget Hd). }
  rewrite (get_weather_present settings now1 city self r Hget Hd).
  destruct (annotate settings now1 city (deref self r)) as [d1|e] eqn:Hann1;
    [|done].
  simpl.
  assert (truthy (deref (store r d1 self) r) = true) as Hd1.
  { unfold deref, store. simpl. rewrite lookup_total_insert_eq.
    destruct (annotate_fields _ _ _ _ _ Hann1) as (Hcity & _).
    by eapply truthy_lookup. }
  rewrite (get_weather_present settings now2 city (store r d1 self) r Hget Hd1).
  rewrite (get_weather_present settings now2 city self r Hget Hd).
  replace (deref (store r d1 self) r) with d1
    by (unfold deref, store; simpl; by rewrite lookup_total_insert_eq).
  rewrite (annotate_again settings now1 city now2 city _ _ Hann1).
  destruct (annotate settings now2 city (deref self r)) as [d2|e] eqn:Hann2.
  - unfold store. simpl. by rewrite insert_insert_eq.
  - apply annotate_inv in Hann1 as (temp & hot & Htemp & Hhot & _).
    unfold annotate in Hann2. by rewrite Htemp, Hhot in Hann2.
Qed.

(** Lookups of different seed cities write different objects. *)
Lemma seeded_refs_differ settings self city1 city2 r1 r2 :
  seeded settings self →
  dict_get city1 (_weather_data self) = Some r1 →
  dict_get city2 (_weather_data self) = Some r2 →
  (r1 = r2 ↔ city1 = city2).
Proof.
  intros [Htable _] H1 H2. rewrite Htable in H1, H2. split.
  - intros <-. by eapply seed_refs_inj.
  - intros <-. rewrite H1 in H2. by injection H2.
Qed.



(** ** The state the service is in *)

Lemma last_lookup_snoc city cs c :
  history.last_lookup city (cs ++ [c])
  = match c with
    | GetWeather now city' =>
        if String.eqb city' city then Some now
        else history.last_lookup city cs
    | _ => history.last_lookup city cs
    end.
Proof.
  induction cs as [|a cs IH]; simpl.
  - destruct c as [now city'| |]; [|done..]. by destruct (String.eqb city' city).
  - rewrite IH. destruct c as [now city'| |]; [|done..].
    by destruct (String.eqb city' city).
Qed.

(** X8: after any sequence of calls, the record stored for a seed city is
    determined by the latest lookup of that city alone: it is the record
    the service was built with if the city was never looked up, and
    otherwise that record with the city, the clock reading of the latest
    lookup and, when the temperature is above the maximum, the warning.
    Lookups of other cities, failed lookups and the other two operations
    leave no trace on it. *)
Theorem stored_record_after_run settings cs city temp humidity condition :
  In (city, (temp, humidity, condition))
    [("New York", (72.5%float, 65, "Partly Cloudy"));
     ("London", (59.0%float, 78, "Rainy"));
     ("Tokyo", (68.3%float, 55, "Sunny"));
     ("Sydney", (77.9%float, 60, "Clear"))] →
  ∃ r,
    dict_get city (_weather_data (run settings cs __init__)) = Some r ∧
    deref (run settings cs __init__) r
    = match history.last_lookup city cs with
      | Some now => annotated settings now city temp humidity condition
      | None => seed temp humidity condition
      end.
Proof.
  intros Hin.
  destruct (seed_values city temp humidity condition Hin) as (r & Hget & Hseed).
  exists r.
  induction cs as [|c cs IH] using rev_ind; [done|].
  destruct IH as [Htable IH].
  pose proof (run_seeded settings cs __init__ (seeded_init settings)) as Hinv.
  rewrite run_app, last_lookup_snoc. simpl.
  destruct c as [now city'| |]; simpl; [|done..].
  destruct (String.eqb_spec city' city) as [->|Hne].
  - destruct (get_weather_after_run settings cs now city r Htable)
      as (temp' & humidity' & condition' & Hin' & _ & ->).
    pose proof (seed_data_functional _ _ _ Hin Hin') as [= <- <- <-].
    split; [done|]. unfold deref, store. simpl.
    by rewrite lookup_total_insert_eq.
  - destruct (get_weather settings now city' (run settings cs __init__))
      as [[r'|e] self'] eqn:Hcall; simpl.
    + apply get_weather_return_inv in Hcall as (Hget' & _ & d & _ & ->).
      destruct (store_frame r' d (run settings cs __init__))
        as (Htable' & _ & Hframe).
      split; [by rewrite Htable'|].
      rewrite Hframe; [done|].
      intros ->. apply Hne.
      by apply (seeded_refs_differ settings _ city' city r' r' Hinv).
    + apply get_weather_raise_unchanged in Hcall. by subst self'.
Qed.

Lemma stored_record_after_run_witness :
  ∃ r,
    dict_get "Tokyo"
      (_weather_data
         (run defaults
            [GetWeather "2024-05-01T12:00:00+00:00" "Tokyo";
             GetWeather "2024-05-01T12:00:01+00:00" "London";
             GetWeather "2024-05-01T12:00:02+00:00" "Tokyo";
             GetWeather "2024-05-01T12:00:03+00:00" "tokyo";
             GetAvailableCities] __init__)) = Some r ∧
    deref
      (run defaults
         [GetWeather "2024-05-01T12:00:00+00:00" "Tokyo";
          GetWeather "2024-05-01T12:00:01+00:00" "London";
          GetWeather "2024-05-01T12:00:02+00:00" "Tokyo";
          GetWeather "2024-05-01T12:00:03+00:00" "tokyo";
          GetAvailableCities] __init__) r
    = annotated defaults "2024-05-01T12:00:02+00:00" "Tokyo" 68.3 55 "Sunny".
Proof.
  apply (stored_record_after_run defaults
           [GetWeather "2024-05-01T12:00:00+00:00" "Tokyo";
            GetWeather "2024-05-01T12:00:01+00:00" "London";
            GetWeather "2024-05-01T12:00:02+00:00" "Tokyo";
            GetWeather "2024-05-01T12:00:03+00:00" "tokyo";
            GetAvailableCities] "Tokyo" 68.3%float 55 "Sunny").
  right. right. left. reflexivity.
Defined.

(** X9: records are shared between the lookups of one city and never
    between lookups of different cities: after any sequence of calls, two
    lookups return the same object exactly when they ask for the same
    city. *)
Theorem same_record_iff_same_city settings cs now1 city1 now2 city2
    r1 r2 self1 self2 :
  get_weather settings now1 city1 (run settings cs __init__)
  = (Return r1, self1) →
  get_weather settings now2 city2 self1 = (Return r2, self2) →
  (r1 = r2 ↔ city1 = city2).
Proof.
  intros Hcall1 Hcall2.
  pose proof (run_seeded settings cs __init__ (seeded_init settings)) as Hinv.
  apply get_weather_return_inv in Hcall1 as (Hget1 & _ & d1 & _ & ->).
  apply get_weather_return_inv in Hcall2 as (Hget2 & _).
  simpl in Hget2.
  by apply (seeded_refs_differ settings _ city1 city2 r1 r2 Hinv).
Qed.

Lemma same_record_iff_same_city_witness :
  (1%positive = 4%positive ↔ "New York" = "Sydney").
Proof.
  apply (same_record_iff_same_city defaults [] "2024-05-01T12:00:00+00:00"
           "New York" "2024-05-01T12:00:01+00:00" "Sydney"
           1%positive 4%positive
           (snd (get_weather defaults "2024-05-01T12:00:00+00:00" "New York"
                   __init__))
           (snd (get_weather defaults "2024-05-01T12:00:01+00:00" "Sydney"
                   (snd (get_weather defaults "2024-05-01T12:00:00+00:00"
                           "New York" __init__)))));
    reflexivity.
Defined.

(** X10: the listing and the lookup agree.  In any state a city whose
    lookup returns is among the cities [get_available_cities] lists; on
    the service, after any sequence of calls, the converse holds as well,
    so the cities listed are exactly those a lookup finds. *)
Theorem listed_iff_found settings now city :
  (∀ self r self',
     get_weather settings now city self = (Return r, self') →
     ∃ cities,
       get_available_cities self = (Return cities, self) ∧ In city cities) ∧
  (∀ cs,
     ∃ cities,
       get_available_cities (run settings cs __init__)
       = (Return cities, run settings cs __init__) ∧
       (In city cities
        ↔ ∃ r self',
            get_weather settings now city (run settings cs __init__)
            = (Return r, self'))).
Proof.
  split.
  - intros self r self' Hcall. eexists. split; [reflexivity|].
    apply get_weather_return_inv in Hcall as (Hget & _).
    apply dict_get_is_Some. by eexists.
  - intros cs. eexists. split; [reflexivity|]. split.
    + intros Hin. apply dict_get_is_Some in Hin as [r Hget].
      destruct (get_weather_after_run settings cs now city r Hget)
        as (? & ? & ? & _ & _ & Hcall).
      by eexists _, _.
    + intros (r & self' & Hcall).
      apply get_weather_return_inv in Hcall as (Hget & _).
      apply dict_get_is_Some. by eexists.
Qed.

(** ** The routes on the service *)

(** X11: after any sequence of calls the weather route answers 200 for
    each of the four seed cities, with a body that carries the city asked
    for, the clock reading of the request and the keys [temp], [humidity]
    and [condition]; for every other city it answers 404 with the
    not-found message.  It never answers anything else, and it leaves the
    service as the service's own lookup does. *)
Theorem weather_route_answers settings cs now city :
  let self := run settings cs __init__ in
  let answer := fst (routes.get_weather settings now city self) in
  (In city ["New York"; "London"; "Tokyo"; "Sydney"] →
   ∃ d,
     answer
     = {| routes.status_code := 200; routes.content := routes.record_body d |} ∧
     d !! "city" = Some (VStr city) ∧
     d !! "timestamp" = Some (VStr now) ∧
     is_Some (d !! "temp") ∧
     is_Some (d !! "humidity") ∧
     is_Some (d !! "condition")) ∧
  (¬ In city ["New York"; "London"; "Tokyo"; "Sydney"] →
   answer
   = {| routes.status_code := 404;
        routes.content :=
          routes.detail_body ("Weather data not found for city: " +:+ city) |}) ∧
  snd (routes.get_weather settings now city self)
  = snd (get_weather settings now city self).
Proof.
  intros self answer. subst answer.
  pose proof (run_seeded settings cs __init__ (seeded_init settings)) as Hinv.
  assert (is_Some (dict_get city (_weather_data self))
          ↔ In city ["New York"; "London"; "Tokyo"; "Sydney"]) as Hkeys.
  { unfold self. rewrite (proj1 Hinv). apply dict_get_is_Some. }
  unfold routes.get_weather.
  destruct (dict_get city (_weather_data self)) as [r|] eqn:Hget.
  - destruct (get_weather_after_run settings cs now city r Hget)
      as (temp & humidity & condition & _ & _ & Hcall).
    fold self in Hcall. rewrite Hcall. simpl.
    split; [|split; [|done]].
    + intros _. eexists. split; [reflexivity|].
      unfold deref, store. simpl. rewrite lookup_total_insert_eq.
      destruct (annotated_lookups settings now city temp humidity condition)
        as (-> & -> & -> & -> & -> & _).
      repeat split; by eexists.
    + intros Hout. destruct Hout. apply Hkeys. by eexists.
  - rewrite (get_weather_absent settings now city self Hget). simpl.
    split; [|split; [done|done]].
    intros Hin. apply Hkeys in Hin as [? ?]. done.
Qed.

Lemma weather_route_answers_witness :
  let self := run defaults [GetWeather "2024-05-01T11:00:00+00:00" "London"]
                __init__ in
  let answer :=
    fst (routes.get_weather defaults "2024-05-01T12:00:00+00:00" "London" self)
  in
  (In "London" ["New York"; "London"; "Tokyo"; "Sydney"] →
   ∃ d,
     answer
     = {| routes.status_code := 200; routes.content := routes.record_body d |} ∧
     d !! "city" = Some (VStr "London") ∧
     d !! "timestamp" = Some (VStr "2024-05-01T12:00:00+00:00") ∧
     is_Some (d !! "temp") ∧
     is_Some (d !! "humidity") ∧
     is_Some (d !! "condition")) ∧
  (¬ In "London" ["New York"; "London"; "Tokyo"; "Sydney"] →
   answer
   = {| routes.status_code := 404;
        routes.content :=
          routes.detail_body ("Weather data not found for city: " +:+ "London") |}) ∧
  snd (routes.get_weather defaults "2024-05-01T12:00:00+00:00" "London" self)
  = snd (get_weather defaults "2024-05-01T12:00:00+00:00" "London" self).
Proof.
  exact (weather_route_answers defaults
           [GetWeather "2024-05-01T11:00:00+00:00" "London"]
           "2024-05-01T12:00:00+00:00" "London").
Defined.

(** X12: after any sequence of calls the cities route answers 200 with a
    list, leaves the service as it is, and lists exactly the cities for
    which the weather route answers 200. *)
Theorem cities_route_lists_served_cities settings cs now :
  ∃ cities,
    routes.get_available_cities (run settings cs __init__)
    = ({| routes.status_code := 200;
          routes.content := routes.list_body cities |},
       run settings cs __init__) ∧
    ∀ city,
      In city cities
      ↔ routes.status_code
          (fst (routes.get_weather settings now city
                  (run settings cs __init__))) = 200.
Proof.
  pose proof (run_seeded settings cs __init__ (seeded_init settings)) as Hinv.
  eexists. split; [reflexivity|].
  intros city. rewrite <- dict_get_is_Some. unfold routes.get_weather.
  destruct (dict_get city (_weather_data (run settings cs __init__)))
    as [r|] eqn:Hget.
  - destruct (get_weather_after_run settings cs now city r Hget)
      as (? & ? & ? & _ & _ & ->).
    simpl. split; [done|]. by eexists.
  - rewrite (get_weather_absent settings now city _ Hget). simpl.
    split; [by intros [? ?]|done].
Qed.
